(** * Sound level monitor: a shallow embedding of [sound_level_monitor.py]

    Python's [float] (and numpy's [float64]) is IEEE 754 binary64, which is
    what Rocq's primitive [float] is; comparisons, division and
    multiplication are the primitive ones, specified by [SpecFloat].

    File names and paths are strings of bytes; [os.path] is [posixpath].
    The file system, the platform, the random generator and the wallpaper
    mechanisms are a [world] that answers the program; what the program
    prints and runs is kept in a trace, next to [current_label]. Python
    exceptions are results: a function returns a value or raises.

    Part one is the program; part two its properties, C1 to C10. *)

From Stdlib Require Import ZArith Lia Bool List Ascii String QArith Qpower.
From Stdlib Require Import Floats.
From stdpp Require Import base option list strings gmap.

Local Open Scope float_scope.

(** ** Loudness bands *)

(** The colour returned next to the label ([colorama.Fore]). *)
Inductive Fore := GREEN | YELLOW | MAGENTA | RED | CYAN.

(** [THRESHOLDS], lines 35-39. *)
Definition THRESHOLDS_quiet : float := -40.
Definition THRESHOLDS_moderate : float := -20.
Definition THRESHOLDS_loud : float := -8.

(** [classify_db], lines 48-56. *)
Definition classify_db (db_value : float) : string * Fore :=
  if db_value <=? THRESHOLDS_quiet then ("Quiet"%string, GREEN)
  else if db_value <=? THRESHOLDS_moderate then ("Moderate"%string, YELLOW)
  else if db_value <=? THRESHOLDS_loud then ("Loud"%string, MAGENTA)
  else ("Very Loud"%string, RED).


(** ** The numbers binary64 values stand for

    A value of [float] other than NaN stands for minus infinity, a rational
    ([(-1)^s * m * 2^e]) or plus infinity. The specification speaks of these numbers;
    the program compares floats. *)
Inductive xreal :=
| NegInf
| Fin (q : Q)
| PosInf.

Definition SF2Q (s : bool) (m : positive) (e : Z) : Q :=
  (inject_Z (cond_Zopp s (Zpos m)) * 2 ^ e)%Q.

Definition SF2X (x : spec_float) : option xreal :=
  match x with
  | S754_zero _ => Some (Fin 0)
  | S754_infinity s => Some (if s then NegInf else PosInf)
  | S754_nan => None
  | S754_finite s m e => Some (Fin (SF2Q s m e))
  end.

Definition float_value (d : float) : option xreal := SF2X (Prim2SF d).

Definition xcompare (a b : xreal) : comparison :=
  match a, b with
  | NegInf, NegInf => Eq
  | NegInf, _ => Lt
  | _, NegInf => Gt
  | PosInf, PosInf => Eq
  | PosInf, _ => Gt
  | _, PosInf => Lt
  | Fin q, Fin r => (q ?= r)%Q
  end.

Definition xle (a b : xreal) : Prop := xcompare a b <> Gt.
Definition xlt (a b : xreal) : Prop := xcompare a b = Lt.

(** A finite value times [2^1074], an integer on every binary64 value. *)
Definition scaled (s : bool) (m : positive) (e : Z) : Z :=
  cond_Zopp s (Zpos m * 2 ^ (e + 1074)).

(** [1.0]. *)
Definition SFone64 : spec_float := S754_finite false 4503599627370496 (-52).

(** ** Strings and paths *)

Local Open Scope string_scope.

(** [str.lower] on the ASCII letters; every other byte is kept. The suffixes
    the program looks for are ASCII, and no character outside ASCII lowers to
    one of their letters. *)
Definition lower_char (c : ascii) : ascii :=
  let n := nat_of_ascii c in
  if ((65 <=? n)%nat && (n <=? 90)%nat)%bool then ascii_of_nat (n + 32) else c.

Fixpoint lower (s : string) : string :=
  match s with
  | EmptyString => EmptyString
  | String c s' => String (lower_char c) (lower s')
  end.

(** [s.endswith(suffix)]: the last [len(suffix)] characters are [suffix]. *)
Definition endswith (s suffix : string) : bool :=
  let n := String.length s in
  let m := String.length suffix in
  if (m <=? n)%nat then String.eqb (substring (n - m) m s) suffix else false.

Definition startswith (s pre : string) : bool := String.prefix pre s.

(** [s.endswith(tuple)]: some member of the tuple is a suffix. *)
Definition endswith_any (s : string) (suffixes : list string) : bool :=
  existsb (endswith s) suffixes.

(** [os.path.join(a, b)] of [posixpath]. *)
Definition os_path_join (a b : string) : string :=
  if startswith b "/" then b
  else if (String.eqb a "" || endswith a "/")%bool then a ++ b
  else a ++ "/" ++ b.

(** Folder paths, lines 26-32. *)
Definition BASE_PATH : string := "wallpapers".

Definition CATEGORIES : gmap string string :=
  {[ "Quiet" := os_path_join BASE_PATH "quiet";
     "Moderate" := os_path_join BASE_PATH "moderate";
     "Loud" := os_path_join BASE_PATH "loud";
     "Very Loud" := os_path_join BASE_PATH "very_loud" ]}.

(** The suffixes of line 65. *)
Definition IMAGE_SUFFIXES : list string := [".jpg"; ".jpeg"; ".png"; ".bmp"].

(** ** The world outside the program *)

(** What a path names. A directory lists the names of its entries, in the
    order [os.listdir] gives them. *)
Inductive node :=
| File
| Dir (entries : list string).

(** Python exceptions. [KeyboardInterrupt] derives from [BaseException]
    only; the others derive from [Exception]. *)
Inductive exn :=
| KeyboardInterrupt
| OSError (what : string)
| IndexError
| KeyError (key : string)
| ValueError
| ZeroDivisionError.

Definition is_Exception (e : exn) : bool :=
  match e with
  | KeyboardInterrupt => false
  | _ => true
  end.

(** The three desktop-background mechanisms of lines 84, 86 and 88, each
    with the absolute path it is given. *)
Inductive platform_call :=
| SystemParametersInfoW (abs_path : string)
| osascript (abs_path : string)
| gsettings (abs_path : string).

(** The answers of the operating system during one iteration of the loop. *)
Record world := mkWorld {
  fs : gmap string node;
  os_path_abspath : string -> string;
  platform_system : string;
  random_bits : nat;
  platform_outcome : platform_call -> option exn
}.

(** ** Effects: console, calls, state and exceptions *)

(** What the program prints; formatting is left out. *)
Inductive message :=
| Starting
| PressCtrlC
| FolderNotFound (folder : string)
| NoImagesFound (folder : string)
| WallpaperNotFound (abs_path : string)
| UnsupportedOS
| ErrorChangingWallpaper (e : exn)
| BandChange (label : string) (db_value : float)
| StoppedByUser
| ErrorMain (e : exn).

(** What a run leaves behind: the lines printed, in colour or plain, the
    platform mechanisms run and the sleeps, and, to count them, the calls of
    the two wallpaper functions, recorded on entry. *)
Inductive event :=
| Print (color : Fore) (m : message)
| Print_plain (m : message)
| Call_get_random_wallpaper (folder : string)
| Call_set_wallpaper (image_path : string)
| Platform (c : platform_call)
| Sleep.

(** [current_label] of [main], and what happened so far, oldest first. *)
Record state := mkState {
  current_label : option string;
  trace : list event
}.

Inductive result (A : Type) :=
| Return (a : A)
| Raise (e : exn).
Arguments Return {A} a.
Arguments Raise {A} e.

Definition M (A : Type) : Type := state -> state * result A.

Definition ret {A} (a : A) : M A := fun st => (st, Return a).

Definition raise {A} (e : exn) : M A := fun st => (st, Raise e).

Definition bind {A B} (c : M A) (k : A -> M B) : M B :=
  fun st =>
    match c st with
    | (st', Return a) => k a st'
    | (st', Raise e) => (st', Raise e)
    end.

Declare Scope py_scope.
Delimit Scope py_scope with py.
Notation "x <- c ;; k" := (bind c (fun x => k))
  (at level 100, c at next level, right associativity) : py_scope.
Notation "c ;; k" := (bind c (fun _ => k))
  (at level 100, right associativity) : py_scope.
Local Open Scope py_scope.

Definition emit (e : event) : M unit :=
  fun st => (mkState (current_label st) (trace st ++ [e]), Return tt).

Definition print (color : Fore) (m : message) : M unit := emit (Print color m).

Definition get_current_label : M (option string) :=
  fun st => (st, Return (current_label st)).

Definition set_current_label (l : option string) : M unit :=
  fun st => (mkState l (trace st), Return tt).

(** [try: c except Exception as e: handler e]. *)
Definition try_except_Exception {A} (c : M A) (handler : exn -> M A) : M A :=
  fun st =>
    match c st with
    | (st', Raise e) => if is_Exception e then handler e st' else (st', Raise e)
    | r => r
    end.

(** ** Library calls *)

Definition os_path_exists (w : world) (path : string) : bool :=
  bool_decide (is_Some (fs w !! path)).

(** [os.listdir]: an [OSError] ([FileNotFoundError], [NotADirectoryError])
    on anything that is not a directory. *)
Definition os_listdir (w : world) (path : string) : M (list string) :=
  match fs w !! path with
  | Some (Dir entries) => ret entries
  | Some File => raise (OSError "NotADirectoryError")
  | None => raise (OSError "FileNotFoundError")
  end.

(** [random.choice(seq)]: [seq[randbelow(len(seq))]], an [IndexError] on
    the empty sequence. *)
Definition random_choice (w : world) (seq : list string) : M string :=
  match seq !! (random_bits w mod length seq)%nat with
  | Some x => ret x
  | None => raise IndexError
  end.

(** A platform mechanism is run: it is recorded, then returns or raises as
    the world says. *)
Definition run_platform (w : world) (c : platform_call) : M unit :=
  emit (Platform c) ;;
  match platform_outcome w c with
  | None => ret tt
  | Some e => raise e
  end.

(** [d[key]]. *)
Definition getitem (d : gmap string string) (key : string) : M string :=
  match d !! key with
  | Some v => ret v
  | None => raise (KeyError key)
  end.

(** Truth value of an [Optional[str]]: [None] and the empty string are false. *)
Definition truthy (o : option string) : bool :=
  match o with
  | Some s => negb (String.eqb s "")
  | None => false
  end.

(** ** The program *)

Section Program.

(** [log10] of the C library, on the arguments where [math.log10] returns. *)
Variable libm_log10 : float -> float.

(** [numpy.sqrt(numpy.mean(block ** 2))], line 116. *)
Variable np_rms : list float -> float.

(** [math.log10]: a [ValueError] at zero and below. *)
Definition math_log10 (x : float) : M float :=
  if (x <=? 0)%float then raise ValueError else ret (libm_log10 x).

(** [a / b] on Python floats: a [ZeroDivisionError] when [b] is zero. *)
Definition truediv (a b : float) : M float :=
  if (b =? 0)%float then raise ZeroDivisionError else ret (a / b)%float.

(** [rms_to_dbfs], lines 42-45; [ref] defaults to [1.0]. *)
Definition rms_to_dbfs (rms ref : float) : M float :=
  if (rms <=? 0)%float then ret neg_infinity
  else
    q <- truediv rms ref ;;
    l <- math_log10 q ;;
    ret (20 * l)%float.

(** [get_random_wallpaper], lines 59-70. *)
Definition get_random_wallpaper (w : world) (folder : string) : M (option string) :=
  emit (Call_get_random_wallpaper folder) ;;
  if negb (os_path_exists w folder) then
    print RED (FolderNotFound folder) ;;
    ret None
  else
    entries <- os_listdir w folder ;;
    let files := filter (fun f => Is_true (endswith_any (lower f) IMAGE_SUFFIXES)) entries in
    match files with
    | [] =>
        print RED (NoImagesFound folder) ;;
        ret None
    | _ =>
        choice <- random_choice w files ;;
        ret (Some (os_path_join folder choice))
    end.

(** [set_wallpaper], lines 73-92. *)
Definition set_wallpaper (w : world) (image_path : string) : M unit :=
  emit (Call_set_wallpaper image_path) ;;
  let abs_path := os_path_abspath w image_path in
  let system := platform_system w in
  if negb (os_path_exists w abs_path) then
    print RED (WallpaperNotFound abs_path)
  else
    try_except_Exception
      (if String.eqb system "Windows" then run_platform w (SystemParametersInfoW abs_path)
       else if String.eqb system "Darwin" then run_platform w (osascript abs_path)
       else if String.eqb system "Linux" then run_platform w (gsettings abs_path)
       else print RED UnsupportedOS)
      (fun e => print RED (ErrorChangingWallpaper e)).

(** Lines 118-128: what one iteration does with the decibel value. *)
Definition on_db_value (w : world) (db_value : float) : M unit :=
  let '(label, color) := classify_db db_value in
  current <- get_current_label ;;
  (if negb (bool_decide (Some label = current)) then
     set_current_label (Some label) ;;
     print color (BandChange label db_value) ;;
     wallpaper_folder <- getitem CATEGORIES label ;;
     random_wall <- get_random_wallpaper w wallpaper_folder ;;
     if truthy random_wall then
       match random_wall with
       | Some path => set_wallpaper w path
       | None => ret tt
       end
     else ret tt
   else ret tt) ;;
  emit Sleep.

(** Lines 115-128: one iteration on a block taken from the queue. *)
Definition loop_body (w : world) (block : list float) : M unit :=
  let rms := np_rms block in
  db_value <- rms_to_dbfs rms 1 ;;
  on_db_value w db_value.

(** What [q.get()] gives: a block, in the world of that iteration, or the
    interrupt of the user. *)
Inductive queue_item :=
| Block (w : world) (block : list float)
| CtrlC.

Inductive status := Running | Exited.

(** Lines 106-109: the two lines of greeting, and no current band. *)
Definition initial_state : state :=
  mkState None [Print_plain Starting; Print_plain PressCtrlC].

(** The handlers of lines 130-133. *)
Definition main_handlers (e : exn) : M unit :=
  match e with
  | KeyboardInterrupt => print CYAN StoppedByUser
  | _ => print RED (ErrorMain e)
  end.

(** [while True] of [main] on the items the queue delivers: [Running] when
    they are used up and the loop waits for the next. *)
Fixpoint main_loop (items : list queue_item) (st : state) : state * status :=
  match items with
  | [] => (st, Running)
  | CtrlC :: _ => (fst (main_handlers KeyboardInterrupt st), Exited)
  | Block w block :: rest =>
      match loop_body w block st with
      | (st', Return _) => main_loop rest st'
      | (st', Raise e) => (fst (main_handlers e st'), Exited)
      end
  end.

(** [main], lines 95-133, on the items of the queue. *)
Definition main (items : list queue_item) : state * status :=
  main_loop items initial_state.

End Program.

(** The loop on decibel values: line 117 replaced by the given value. *)
Fixpoint run_db (items : list (world * float)) (st : state) : state * status :=
  match items with
  | [] => (st, Running)
  | (w, db_value) :: rest =>
      match on_db_value w db_value st with
      | (st', Return _) => run_db rest st'
      | (st', Raise e) => (fst (main_handlers e st'), Exited)
      end
  end.

(** ** Reading runs *)

(** [st] after the events [evs]. *)
Definition logged (st : state) (evs : list event) : state :=
  mkState (current_label st) (trace st ++ evs).

(** The entries [get_random_wallpaper] chooses from. *)
Definition image_entries (entries : list string) : list string :=
  filter (fun f => Is_true (endswith_any (lower f) IMAGE_SUFFIXES)) entries.

(** The selector has nothing to offer: no such path, or a directory with
    no entry that ends in an image suffix. *)
Definition unavailable (w : world) (folder : string) : Prop :=
  fs w !! folder = None \/
  exists entries,
    fs w !! folder = Some (Dir entries) /\
    Forall (fun f => endswith_any (lower f) IMAGE_SUFFIXES = false) entries.

(** The warning of the selector on such a folder. *)
Definition selector_warning (w : world) (folder : string) : message :=
  match fs w !! folder with
  | None => FolderNotFound folder
  | Some _ => NoImagesFound folder
  end.

(** The mechanism [set_wallpaper] runs on a system, if it knows the system. *)
Definition platform_mechanism (system abs_path : string) : option platform_call :=
  if String.eqb system "Windows" then Some (SystemParametersInfoW abs_path)
  else if String.eqb system "Darwin" then Some (osascript abs_path)
  else if String.eqb system "Linux" then Some (gsettings abs_path)
  else None.

(** A system [set_wallpaper] has no branch for. *)
Definition unrecognized (system : string) : Prop :=
  system <> "Windows" /\ system <> "Darwin" /\ system <> "Linux".

(** Lines 125-128, on what the selector gave. *)
Definition after_selection (w : world) (x : state * result (option string))
  : state * result unit :=
  match x with
  | (st2, Raise e) => (st2, Raise e)
  | (st2, Return (Some path)) =>
      if truthy (Some path) then
        match set_wallpaper w path st2 with
        | (st3, Return _) => (logged st3 [Sleep], Return tt)
        | (st3, Raise e) => (st3, Raise e)
        end
      else (logged st2 [Sleep], Return tt)
  | (st2, Return None) => (logged st2 [Sleep], Return tt)
  end.

(** Kinds of events. *)
Definition is_selection (e : event) : bool :=
  match e with Call_get_random_wallpaper _ => true | _ => false end.

Definition is_band_change (e : event) : bool :=
  match e with Print _ (BandChange _ _) => true | _ => false end.

Definition is_sleep (e : event) : bool :=
  match e with Sleep => true | _ => false end.

Definition is_platform (e : event) : bool :=
  match e with Platform _ => true | _ => false end.

Definition is_application (e : event) : bool :=
  match e with Call_set_wallpaper _ => true | _ => false end.

(** Number of calls of the selector among the events. *)
Definition selection_attempts (evs : list event) : nat :=
  length (filter (fun e => Is_true (is_selection e)) evs).

(** The band changes reported in a trace, each with the number of the
    sample it was reported for: an iteration that ends sleeps once, so the
    sample in progress is one more than the sleeps so far. [n] is the number
    of the sample in progress at the head of the trace. *)
Fixpoint band_changes (n : nat) (evs : list event) : list (nat * string) :=
  match evs with
  | [] => []
  | Sleep :: evs' => band_changes (S n) evs'
  | Print _ (BandChange label _) :: evs' => (n, label) :: band_changes n evs'
  | _ :: evs' => band_changes n evs'
  end.

(** [rms_to_dbfs] with the default reference, as a value. *)
Definition dbfs (libm_log10 : float -> float) (rms : float) : float :=
  if (rms <=? 0)%float then neg_infinity else (20 * libm_log10 rms)%float.

(** Events of the selector and of the applier: not a band change, not a
    call of the selector, not the sleep that ends an iteration. *)
Definition inner (e : event) : bool :=
  negb (is_selection e || is_band_change e || is_sleep e).

(** An iteration that returns has slept; one that raises has not. *)
Definition sleep_of {A} (r : result A) : list event :=
  match r with
  | Return _ => [Sleep]
  | Raise _ => []
  end.

Definition sleeps (evs : list event) : nat :=
  length (filter (fun e => Is_true (is_sleep e)) evs).

(** The decibel stream of the scenario, and a stream in one world. *)
Definition db_stream : list float := [-50; -50; -15; -15; -5]%float.

Definition feed (w : world) (dbs : list float) : list (world * float) :=
  map (fun d => (w, d)) dbs.

(** ** Sample worlds *)

Definition no_abspath : string -> string := fun p => p.
Definition calls_return : platform_call -> option exn := fun _ => None.

(** The Loud folder holds [a.png] and [b.txt]. *)
Definition w_loud : world :=
  mkWorld {[ "wallpapers/loud" := Dir ["a.png"; "b.txt"];
             "wallpapers/loud/a.png" := File;
             "wallpapers/loud/b.txt" := File ]}
          no_abspath "Linux" 7 calls_return.

(** The Loud folder holds a subdirectory whose name ends in [.png]. *)
Definition w_subdir : world :=
  mkWorld {[ "wallpapers/loud" := Dir ["pics.png"];
             "wallpapers/loud/pics.png" := Dir [] ]}
          no_abspath "Linux" 0 calls_return.

(** A Windows machine whose wallpaper call fails. *)
Definition w_denied : world :=
  mkWorld {[ "C:/walls/a.png" := File ]} no_abspath "Windows" 0
          (fun _ => Some (OSError "access denied")).

(** A system [set_wallpaper] does not know, with one quiet wallpaper. *)
Definition w_freebsd : world :=
  mkWorld {[ "wallpapers/quiet" := Dir ["q.jpg"];
             "wallpapers/quiet/q.jpg" := File ]}
          no_abspath "FreeBSD" 3 calls_return.

(** No wallpaper folder exists. *)
Definition w_empty (system : string) : world :=
  mkWorld ∅ no_abspath system 0 calls_return.

(** The user interrupts while the wallpaper mechanism runs. *)
Definition w_interrupted : world :=
  mkWorld {[ "wallpapers/loud" := Dir ["a.png"];
             "wallpapers/loud/a.png" := File ]}
          no_abspath "Linux" 0 (fun _ => Some KeyboardInterrupt).

(** ** Further readings of runs *)

(** The four labels, and the place of a band in the order
    Quiet, Moderate, Loud, Very Loud. *)
Definition LABELS : list string := ["Quiet"; "Moderate"; "Loud"; "Very Loud"].

Definition band_rank (label : string) : nat :=
  if String.eqb label "Quiet" then 0
  else if String.eqb label "Moderate" then 1
  else if String.eqb label "Loud" then 2
  else 3.

(** The same world with another outcome of the random generator. *)
Definition with_random_bits (w : world) (bits : nat) : world :=
  mkWorld (fs w) (os_path_abspath w) (platform_system w) bits (platform_outcome w).

(** Number of platform mechanisms run among the events. *)
Definition platform_calls (evs : list event) : nat :=
  length (filter (fun e => Is_true (is_platform e)) evs).

(** The bands reported in a trace, oldest first. *)
Fixpoint reported_bands (evs : list event) : list string :=
  match evs with
  | [] => []
  | Print _ (BandChange label _) :: evs' => label :: reported_bands evs'
  | _ :: evs' => reported_bands evs'
  end.

(** No band twice in a row. *)
Fixpoint no_repeat (l : list string) : Prop :=
  match l with
  | a :: (b :: _) as tl => a <> b /\ no_repeat tl
  | _ => True
  end.

(** The paths the applier was called on. *)
Fixpoint applied_paths (evs : list event) : list string :=
  match evs with
  | [] => []
  | Call_set_wallpaper p :: evs' => p :: applied_paths evs'
  | _ :: evs' => applied_paths evs'
  end.

(** The blocks among the items of the queue. *)
Definition is_block (i : queue_item) : bool :=
  match i with Block _ _ => true | CtrlC => false end.

(** What an iteration may raise: the error of [os.listdir] on the folder of
    the band, or what the wallpaper mechanism raised outside [Exception]. *)
Definition iteration_error (w : world) (label : string) (e : exn) : Prop :=
  (e = OSError "NotADirectoryError" /\
   exists folder, CATEGORIES !! label = Some folder /\ fs w !! folder = Some File) \/
  (is_Exception e = false /\ exists c, platform_outcome w c = Some e).

(** Where an applied path comes from: the folder of the band. *)
Definition from_band_folder (w : world) (label : string) (p : string) : Prop :=
  exists folder entries name,
    CATEGORIES !! label = Some folder /\
    fs w !! folder = Some (Dir entries) /\ name ∈ entries /\
    endswith_any (lower name) IMAGE_SUFFIXES = true /\
    p = os_path_join folder name.

(** The line a handler of [main] prints for an exception. *)
Definition handler_event (e : exn) : event :=
  match e with
  | KeyboardInterrupt => Print CYAN StoppedByUser
  | _ => Print RED (ErrorMain e)
  end.

(** Number of blocks among the items. *)
Definition blocks (items : list queue_item) : nat :=
  length (filter (fun i => Is_true (is_block i)) items).

(** What holds of the events [evs] of a run over [n] blocks that began with
    the current band [cur] and ended with [cur']: every reported band is
    followed by one call of the selector, there is at most one report and
    one sleep per block, at most one call of the applier per call of the
    selector and one platform mechanism per call of the applier; the
    reported bands are labels, none of them repeats the band before it, and
    the last of them is the current band. *)
Definition run_facts (cur : option string) (n : nat) (evs : list event)
    (cur' : option string) : Prop :=
  selection_attempts evs = length (reported_bands evs) /\
  (length (reported_bands evs) <= n)%nat /\
  (sleeps evs <= n)%nat /\
  (length (applied_paths evs) <= selection_attempts evs)%nat /\
  (platform_calls evs <= length (applied_paths evs))%nat /\
  Forall (fun l => l ∈ LABELS) (reported_bands evs) /\
  no_repeat (option_list cur ++ reported_bands evs) /\
  last (option_list cur ++ reported_bands evs) = cur'.


(** The trace [main] leaves on the items of the queue. *)
Definition main_trace (libm_log10 : float -> float) (np_rms : list float -> float)
    (items : list queue_item) : list event :=
  trace (main libm_log10 np_rms items).1.

(** A value with the sign bit [sx]: not NaN. *)
Definition signed (sx : bool) (f : spec_float) : Prop :=
  match f with
  | S754_zero s | S754_infinity s | S754_finite s _ _ => s = sx
  | S754_nan => False
  end.

(** * Properties *)

(** ** Runs on concrete inputs *)

Example classify_m50 : classify_db (-50) = ("Quiet"%string, GREEN).
Proof. reflexivity. Qed.
Example classify_m40 : classify_db (-40) = ("Quiet"%string, GREEN).
Proof. reflexivity. Qed.
Example classify_m39_5 : classify_db (-39.5) = ("Moderate"%string, YELLOW).
Proof. reflexivity. Qed.
Example classify_m20 : classify_db (-20) = ("Moderate"%string, YELLOW).
Proof. reflexivity. Qed.
Example classify_m15 : classify_db (-15) = ("Loud"%string, MAGENTA).
Proof. reflexivity. Qed.
Example classify_m8 : classify_db (-8) = ("Loud"%string, MAGENTA).
Proof. reflexivity. Qed.
Example classify_m7_5 : classify_db (-7.5) = ("Very Loud"%string, RED).
Proof. reflexivity. Qed.
Example classify_neg_infinity : classify_db neg_infinity = ("Quiet"%string, GREEN).
Proof. reflexivity. Qed.
Example classify_infinity : classify_db infinity = ("Very Loud"%string, RED).
Proof. reflexivity. Qed.
Example classify_nan : classify_db nan = ("Very Loud"%string, RED).
Proof. reflexivity. Qed.

Example lower_mixed : lower "Photo.JPeG" = "photo.jpeg".
Proof. reflexivity. Qed.
Example endswith_png : endswith "a.png" ".png" = true.
Proof. reflexivity. Qed.
Example endswith_short : endswith "png" ".png" = false.
Proof. reflexivity. Qed.
Example image_entries_mixed :
  image_entries ["a.png"; "b.txt"; "C.JPG"; "d.jpeg.bak"; ".bmp"] = ["a.png"; "C.JPG"; ".bmp"].
Proof. reflexivity. Qed.

Example os_path_join_plain : os_path_join "wallpapers" "quiet" = "wallpapers/quiet".
Proof. reflexivity. Qed.
Example os_path_join_slash : os_path_join "wallpapers/" "quiet" = "wallpapers/quiet".
Proof. reflexivity. Qed.
Example os_path_join_absolute : os_path_join "wallpapers" "/tmp" = "/tmp".
Proof. reflexivity. Qed.
Example CATEGORIES_very_loud : CATEGORIES !! "Very Loud" = Some "wallpapers/very_loud".
Proof. reflexivity. Qed.

Example rms_to_dbfs_silence :
  rms_to_dbfs (fun x => x) 0 1 (mkState None []) = (mkState None [], Return neg_infinity).
Proof. reflexivity. Qed.

(** One loud block, then the interrupt: the wallpaper of the only image is
    set through [gsettings], and the loop ends on the message of line 131. *)
Example main_loud_then_interrupt :
  main (fun _ => (-0.5)%float) (fun _ => 0.5%float) [Block w_loud []; CtrlC]
  = (mkState (Some "Loud")
       [Print_plain Starting; Print_plain PressCtrlC;
        Print MAGENTA (BandChange "Loud" (-10)%float);
        Call_get_random_wallpaper "wallpapers/loud";
        Call_set_wallpaper "wallpapers/loud/a.png";
        Platform (gsettings "wallpapers/loud/a.png");
        Sleep;
        Print CYAN StoppedByUser],
     Exited).
Proof. reflexivity. Qed.

(** A wallpaper folder that is a file ends the loop through the handler of
    line 132. *)
Example main_folder_is_a_file :
  main (fun _ => (-0.5)%float) (fun _ => 0.5%float)
       [Block (mkWorld {[ "wallpapers/loud" := File ]} no_abspath "Linux" 0 calls_return) [];
        Block w_loud []]
  = (mkState (Some "Loud")
       [Print_plain Starting; Print_plain PressCtrlC;
        Print MAGENTA (BandChange "Loud" (-10)%float);
        Call_get_random_wallpaper "wallpapers/loud";
        Print RED (ErrorMain (OSError "NotADirectoryError"))],
     Exited).
Proof. reflexivity. Qed.

(** ** The order of binary64 values

    [<=?] and [<?] on [float] are specified by [SFleb] and [SFltb] on the
    value's [spec_float]; the lemmas below are the facts about that order the
    comparison chain of [classify_db] relies on. *)
Module FloatOrder.

Local Open Scope float_scope.

Lemma SFcompare_antisym (x y : spec_float) :
  SFcompare y x = option_map CompOpp (SFcompare x y).
Proof.
  destruct x as [sx|sx| |sx mx ex], y as [sy|sy| |sy my ey]; simpl;
    try reflexivity;
    try (destruct sx; reflexivity); try (destruct sy; reflexivity);
    try (destruct sx, sy; reflexivity).
  assert (Hm : Pos.compare_cont Eq my mx = CompOpp (Pos.compare_cont Eq mx my))
    by (rewrite Pos.compare_cont_antisym; reflexivity).
  destruct sx, sy; simpl; try reflexivity;
    rewrite (Z.compare_antisym ex ey), Hm;
    destruct (ex ?= ey)%Z; simpl; try reflexivity;
    destruct (Pos.compare_cont Eq mx my); reflexivity.
Qed.

Lemma SFcompare_refl (x : spec_float) :
  x <> S754_nan -> SFcompare x x = Some Eq.
Proof.
  destruct x as [s|s| |s m e]; simpl; intros Hx; try congruence.
  - destruct s; reflexivity.
  - rewrite Z.compare_refl, Pos.compare_cont_refl. destruct s; reflexivity.
Qed.

Lemma SFcompare_nan_l (y : spec_float) : SFcompare S754_nan y = None.
Proof. reflexivity. Qed.

Lemma SFcompare_not_nan (x y : spec_float) :
  x <> S754_nan -> y <> S754_nan -> exists c, SFcompare x y = Some c.
Proof.
  destruct x, y; simpl; intros Hx Hy; try congruence; eauto.
Qed.

(** [is_nan] says that the value is the NaN of [spec_float]. *)
Lemma is_nan_spec (d : float) : is_nan d = true <-> Prim2SF d = S754_nan.
Proof.
  unfold is_nan. rewrite FloatAxioms.eqb_spec. unfold SFeqb. split.
  - intros H. destruct (Prim2SF d) eqn:E; try reflexivity;
      rewrite SFcompare_refl in H by congruence; discriminate.
  - intros ->. reflexivity.
Qed.

Lemma is_nan_false_spec (d : float) : is_nan d = false <-> Prim2SF d <> S754_nan.
Proof.
  rewrite <- is_nan_spec. destruct (is_nan d); split; congruence.
Qed.

(** NaN fails every comparison. *)
Lemma leb_nan_l (d a : float) : is_nan d = true -> (d <=? a) = false.
Proof.
  intros H%is_nan_spec. rewrite leb_spec. unfold SFleb. now rewrite H.
Qed.

(** [a < d] excludes [d <= a]. *)
Lemma ltb_leb_false (a d : float) : (a <? d) = true -> (d <=? a) = false.
Proof.
  rewrite ltb_spec, leb_spec. unfold SFltb, SFleb.
  rewrite (SFcompare_antisym (Prim2SF a) (Prim2SF d)).
  destruct (SFcompare (Prim2SF a) (Prim2SF d)) as [[]|]; simpl; congruence.
Qed.

(** On values that are not NaN the order is total: not [d <= a] gives [a < d]. *)
Lemma leb_false_ltb (a d : float) :
  is_nan a = false -> is_nan d = false -> (d <=? a) = false -> (a <? d) = true.
Proof.
  intros Ha%is_nan_false_spec Hd%is_nan_false_spec.
  rewrite ltb_spec, leb_spec. unfold SFltb, SFleb.
  rewrite (SFcompare_antisym (Prim2SF a) (Prim2SF d)).
  destruct (SFcompare_not_nan _ _ Ha Hd) as [c ->].
  destruct c; simpl; congruence.
Qed.

Lemma leb_ltb_total (a d : float) :
  is_nan a = false -> is_nan d = false ->
  ((d <=? a) = true /\ (a <? d) = false) \/ ((d <=? a) = false /\ (a <? d) = true).
Proof.
  intros Ha Hd. destruct (d <=? a) eqn:E.
  - left. split; [reflexivity|]. destruct (a <? d) eqn:E'; [|reflexivity].
    apply ltb_leb_false in E'. congruence.
  - right. split; [reflexivity|]. now apply leb_false_ltb.
Qed.

(** *** Values *)

(** A mantissa of [d] binary digits lies in [[2^(d-1), 2^d)]. *)
Lemma digits2_pos_bounds (m : positive) :
  (2 ^ (Zpos (digits2_pos m) - 1) <= Zpos m < 2 ^ Zpos (digits2_pos m))%Z.
Proof.
  induction m as [m IH|m IH|]; simpl digits2_pos.
  - rewrite Pos2Z.inj_succ.
    replace (Z.succ (Zpos (digits2_pos m)) - 1)%Z with (Z.succ (Zpos (digits2_pos m) - 1))%Z by lia.
    rewrite !Z.pow_succ_r by lia. lia.
  - rewrite Pos2Z.inj_succ.
    replace (Z.succ (Zpos (digits2_pos m)) - 1)%Z with (Z.succ (Zpos (digits2_pos m) - 1))%Z by lia.
    rewrite !Z.pow_succ_r by lia. lia.
  - simpl. lia.
Qed.

(** What [bounded] says of a binary64 mantissa and exponent: the exponent
    is in range, the mantissa has at most 53 digits, and exactly 53 above
    the least exponent (the normal numbers). *)
Lemma bounded_inv (m : positive) (e : Z) :
  bounded prec emax m e = true ->
  (-1074 <= e <= 971)%Z /\ (Zpos (digits2_pos m) <= 53)%Z /\
  ((-1074 < e)%Z -> Zpos (digits2_pos m) = 53%Z).
Proof.
  unfold bounded, canonical_mantissa, fexp, SpecFloat.emin, prec, emax.
  intros [H1%Z.eqb_eq H2%Z.leb_le]%andb_true_iff. lia.
Qed.

(** Between two binary64 values of the same sign the smaller exponent is
    the smaller magnitude. *)
Lemma scaled_lt_exp (m1 m2 : positive) (e1 e2 : Z) :
  bounded prec emax m1 e1 = true -> bounded prec emax m2 e2 = true ->
  (e1 < e2)%Z ->
  (Zpos m1 * 2 ^ (e1 + 1074) < Zpos m2 * 2 ^ (e2 + 1074))%Z.
Proof.
  intros (He1 & Hd1 & _)%bounded_inv (He2 & _ & Hd2)%bounded_inv Hlt.
  specialize (Hd2 ltac:(lia)).
  pose proof (digits2_pos_bounds m1) as [_ Hm1].
  pose proof (digits2_pos_bounds m2) as [Hm2 _].
  rewrite Hd2 in Hm2.
  assert (Hm1' : (Zpos m1 < 2 ^ 53)%Z).
  { eapply Z.lt_le_trans; [exact Hm1|]. apply Z.pow_le_mono_r; lia. }
  replace (e2 + 1074)%Z with ((e1 + 1074) + (e2 - e1))%Z by lia.
  rewrite (Z.pow_add_r 2 (e1 + 1074) (e2 - e1)) by lia.
  assert (Hk : (0 < 2 ^ (e1 + 1074))%Z) by (apply Z.pow_pos_nonneg; lia).
  assert (Hj : (2 ^ 1 <= 2 ^ (e2 - e1))%Z) by (apply Z.pow_le_mono_r; lia).
  change (2 ^ 1)%Z with 2%Z in Hj.
  change (2 ^ (53 - 1))%Z with 4503599627370496%Z in Hm2.
  change (2 ^ 53)%Z with 9007199254740992%Z in Hm1'.
  set (K := (2 ^ (e1 + 1074))%Z) in *. set (J := (2 ^ (e2 - e1))%Z) in *.
  apply Z.lt_le_trans with (9007199254740992 * K)%Z.
  - apply Z.mul_lt_mono_pos_r; assumption.
  - replace (9007199254740992 * K)%Z with (4503599627370496 * (K * 2))%Z by ring.
    apply Z.mul_le_mono_nonneg; try lia.
    apply Z.mul_le_mono_nonneg_l; lia.
Qed.

(** [SFcompare] on finite binary64 values is the order of the integers
    [value * 2^1074]. *)
Lemma scaled_compare (s1 s2 : bool) (m1 m2 : positive) (e1 e2 : Z) :
  bounded prec emax m1 e1 = true -> bounded prec emax m2 e2 = true ->
  SFcompare (S754_finite s1 m1 e1) (S754_finite s2 m2 e2)
  = Some (scaled s1 m1 e1 ?= scaled s2 m2 e2)%Z.
Proof.
  intros H1 H2. simpl. f_equal. unfold scaled.
  assert (Hk1 : (0 < 2 ^ (e1 + 1074))%Z)
    by (apply Z.pow_pos_nonneg; [lia|]; apply bounded_inv in H1; lia).
  assert (Hk2 : (0 < 2 ^ (e2 + 1074))%Z)
    by (apply Z.pow_pos_nonneg; [lia|]; apply bounded_inv in H2; lia).
  assert (Hp1 : (0 < Zpos m1 * 2 ^ (e1 + 1074))%Z) by lia.
  assert (Hp2 : (0 < Zpos m2 * 2 ^ (e2 + 1074))%Z) by lia.
  assert (Hcmp : match (e1 ?= e2)%Z with
                 | Eq => Pos.compare_cont Eq m1 m2
                 | Lt => Lt
                 | Gt => Gt
                 end = (Zpos m1 * 2 ^ (e1 + 1074) ?= Zpos m2 * 2 ^ (e2 + 1074))%Z).
  { destruct (Z.compare_spec e1 e2) as [->|Hlt|Hgt].
    - rewrite <- Zmult_compare_compat_r by lia. reflexivity.
    - symmetry. apply Z.compare_lt_iff. now apply scaled_lt_exp.
    - symmetry. apply Z.compare_gt_iff. now apply scaled_lt_exp. }
  destruct s1, s2; simpl cond_Zopp.
  - rewrite Z.compare_opp,
      (Z.compare_antisym (Zpos m1 * 2 ^ (e1 + 1074)) (Zpos m2 * 2 ^ (e2 + 1074))), <- Hcmp.
    destruct (e1 ?= e2)%Z; reflexivity.
  - symmetry. apply Z.compare_lt_iff. lia.
  - symmetry. apply Z.compare_gt_iff. lia.
  - exact Hcmp.
Qed.

(** The rational of a finite value is that integer over [2^1074]. *)
Lemma SF2Q_scaled (s : bool) (m : positive) (e : Z) :
  (-1074 <= e)%Z ->
  (SF2Q s m e == inject_Z (scaled s m e) * 2 ^ (-1074))%Q.
Proof.
  intros He. unfold SF2Q, scaled.
  replace e with ((e + 1074) + (-1074))%Z at 1 by lia.
  rewrite Qpower_plus by discriminate.
  rewrite Qmult_assoc. apply Qmult_comp; [|reflexivity].
  destruct s; simpl cond_Zopp.
  - rewrite !inject_Z_opp, inject_Z_mult, Zpower_Qpower by lia.
    change (inject_Z 2) with 2%Q. generalize (2 ^ (e + 1074))%Q. intros t. ring.
  - rewrite inject_Z_mult, Zpower_Qpower by lia. reflexivity.
Qed.

Lemma Qcompare_scale (a b : Z) (c : Q) :
  (0 < c)%Q -> (inject_Z a * c ?= inject_Z b * c)%Q = (a ?= b)%Z.
Proof.
  intros Hc. destruct (Z.compare_spec a b) as [->|Hlt|Hgt].
  - apply Qeq_alt. reflexivity.
  - apply Qlt_alt. apply Qmult_lt_r; [assumption|]. now rewrite <- Zlt_Qlt.
  - apply Qgt_alt. apply Qmult_lt_r; [assumption|]. now rewrite <- Zlt_Qlt.
Qed.

(** [SFcompare] on binary64 values that are not NaN is the order of the
    numbers they stand for. *)
Lemma SFcompare_value (x y : spec_float) (u v : xreal) :
  valid_binary x = true -> valid_binary y = true ->
  SF2X x = Some u -> SF2X y = Some v ->
  SFcompare x y = Some (xcompare u v).
Proof.
  assert (Hpow : (0 < 2 ^ (-1074))%Q) by (apply Qpower_0_lt; reflexivity).
  assert (Hz : forall s m e, bounded prec emax m e = true ->
             (SF2Q s m e ?= 0)%Q = (if s then Lt else Gt)).
  { intros s m e He. apply bounded_inv in He as (He & _).
    assert (H0 : (0 == inject_Z 0 * 2 ^ (-1074))%Q) by ring.
    rewrite (Qcompare_comp _ _ (SF2Q_scaled s m e ltac:(lia)) _ _ H0).
    rewrite Qcompare_scale by assumption. unfold scaled.
    assert (0 < 2 ^ (e + 1074))%Z by (apply Z.pow_pos_nonneg; lia).
    destruct s; simpl cond_Zopp; [apply Z.compare_lt_iff | apply Z.compare_gt_iff]; lia. }
  intros Hx Hy Hu Hv.
  destruct x as [sx|sx| |sx mx ex], y as [sy|sy| |sy my ey]; simpl in Hu, Hv;
    try discriminate; injection Hu as <-; injection Hv as <-; simpl in Hx, Hy.
  - reflexivity.
  - destruct sy; reflexivity.
  - simpl. rewrite <- Qcompare_antisym, Hz by assumption. destruct sy; reflexivity.
  - destruct sx; reflexivity.
  - destruct sx, sy; reflexivity.
  - destruct sx; reflexivity.
  - simpl. rewrite Hz by assumption. reflexivity.
  - destruct sy; reflexivity.
  - rewrite scaled_compare by assumption. simpl. f_equal.
    pose proof (bounded_inv _ _ Hx) as (Hex & _).
    pose proof (bounded_inv _ _ Hy) as (Hey & _).
    rewrite (Qcompare_comp _ _ (SF2Q_scaled sx mx ex ltac:(lia))
                           _ _ (SF2Q_scaled sy my ey ltac:(lia))).
    now rewrite Qcompare_scale.
Qed.

(** *** Division by one *)

(** The exponent of a binary64 value is the one its digits call for. *)
Lemma fexp_canonical (m : positive) (e : Z) :
  bounded prec emax m e = true -> fexp prec emax (Zpos (digits2_pos m) + e) = e.
Proof.
  unfold bounded, canonical_mantissa.
  intros [H1%Z.eqb_eq _]%andb_true_iff. exact H1.
Qed.

(** Rounding a value that is already representable changes nothing. *)
Lemma binary_round_aux_exact (s : bool) (m : positive) (e : Z) :
  bounded prec emax m e = true ->
  binary_round_aux prec emax s (Zpos m) e loc_Exact = S754_finite s m e.
Proof.
  intros Hb. pose proof (fexp_canonical m e Hb) as Hf.
  pose proof (bounded_inv m e Hb) as (He & _).
  unfold binary_round_aux, shr_fexp. simpl Zdigits2. rewrite Hf, Z.sub_diag.
  simpl. rewrite Hf, Z.sub_diag. simpl.
  replace (e <=? emax - prec)%Z with true; [reflexivity|].
  symmetry. apply Z.leb_le. unfold emax, prec. lia.
Qed.

Lemma binary_round_aux_exact_double (s : bool) (m : positive) (e : Z) :
  bounded prec emax m e = true ->
  binary_round_aux prec emax s (Zpos m~0) (e - 1) loc_Exact = S754_finite s m e.
Proof.
  intros Hb. pose proof (fexp_canonical m e Hb) as Hf.
  pose proof (bounded_inv m e Hb) as (He & _).
  unfold binary_round_aux, shr_fexp. simpl Zdigits2.
  rewrite Pos2Z.inj_succ.
  replace (Z.succ (Zpos (digits2_pos m)) + (e - 1))%Z with (Zpos (digits2_pos m) + e)%Z by lia.
  rewrite Hf. replace (e - (e - 1))%Z with 1%Z by lia.
  simpl. replace (e - 1 + 1)%Z with e by lia.
  rewrite Hf, Z.sub_diag. simpl.
  replace (e <=? emax - prec)%Z with true; [reflexivity|].
  symmetry. apply Z.leb_le. unfold emax, prec. lia.
Qed.

(** The specification of [1.0]. *)
Lemma Prim2SF_one : Prim2SF 1 = SFone64.
Proof. reflexivity. Qed.

(** Euclidean division of a multiple. *)
Lemma div_eucl_mul (a b : Z) : (0 < b)%Z -> Z.div_eucl (a * b) b = (a, 0%Z).
Proof.
  intros Hb. pose proof (Z.div_mul a b ltac:(lia)) as Hq.
  pose proof (Z.mod_mul a b ltac:(lia)) as Hr.
  unfold Z.div, Z.modulo in Hq, Hr.
  destruct (Z.div_eucl (a * b) b) as [q r]. simpl in *. congruence.
Qed.

(** The quotient of a mantissa by that of [1.0] is the mantissa itself,
    doubled with the exponent one less on normal numbers... *)
Lemma SFdiv_core_one_normal (m : positive) (e : Z) :
  bounded prec emax m e = true -> (-1074 < e)%Z ->
  SFdiv_core_binary prec emax (Zpos m) e 4503599627370496 (-52)
  = (Zpos m~0, (e - 1)%Z, loc_Exact).
Proof.
  intros Hb He. pose proof (bounded_inv m e Hb) as (He' & _ & Hd).
  specialize (Hd He).
  unfold SFdiv_core_binary.
  change (Zdigits2 4503599627370496) with 53%Z.
  change (Zdigits2 (Zpos m)) with (Zpos (digits2_pos m)). rewrite Hd.
  assert (He1 : Z.min (fexp prec emax (53 + e - (53 + -52))) (e - -52) = (e - 1)%Z)
    by (unfold fexp, SpecFloat.emin, prec, emax; lia).
  rewrite He1. replace (e - -52 - (e - 1))%Z with 53%Z by lia.
  rewrite Z.shiftl_mul_pow2 by lia.
  replace (Zpos m * 2 ^ 53)%Z with (Zpos m~0 * 4503599627370496)%Z
    by (change (2 ^ 53)%Z with (2 * 4503599627370496)%Z; lia).
  rewrite div_eucl_mul by lia. reflexivity.
Qed.

(** ... and unchanged at the least exponent. *)
Lemma SFdiv_core_one_subnormal (m : positive) :
  bounded prec emax m (-1074) = true ->
  SFdiv_core_binary prec emax (Zpos m) (-1074) 4503599627370496 (-52)
  = (Zpos m, (-1074)%Z, loc_Exact).
Proof.
  intros Hb. pose proof (bounded_inv m _ Hb) as (_ & Hd & _).
  unfold SFdiv_core_binary.
  change (Zdigits2 4503599627370496) with 53%Z.
  change (Zdigits2 (Zpos m)) with (Zpos (digits2_pos m)).
  assert (He1 : Z.min (fexp prec emax (Zpos (digits2_pos m) + -1074 - (53 + -52)))
                      (-1074 - -52) = (-1074)%Z)
    by (unfold fexp, SpecFloat.emin, prec, emax; lia).
  rewrite He1. change (-1074 - -52 - -1074)%Z with 52%Z.
  rewrite Z.shiftl_mul_pow2 by lia.
  change (2 ^ 52)%Z with 4503599627370496%Z.
  rewrite div_eucl_mul by lia. reflexivity.
Qed.

(** Division by [1.0] is exact on every binary64 value. *)
Lemma SF64div_one (x : spec_float) :
  valid_binary x = true -> SF64div x SFone64 = x.
Proof.
  destruct x as [s|s| |s m e]; simpl; intros Hx;
    try (rewrite xorb_false_r; reflexivity); try reflexivity.
  pose proof (bounded_inv m e Hx) as (He & _).
  destruct (Z.eq_dec e (-1074)%Z) as [->|Hne].
  - rewrite SFdiv_core_one_subnormal by assumption.
    rewrite xorb_false_r. now apply binary_round_aux_exact.
  - rewrite SFdiv_core_one_normal by (assumption || lia).
    rewrite xorb_false_r. now apply binary_round_aux_exact_double.
Qed.

Lemma div_one (x : float) : (x / 1)%float = x.
Proof.
  apply Prim2SF_inj. rewrite div_spec. apply SF64div_one, Prim2SF_valid.
Qed.


(** *** The float comparisons on values *)

Lemma leb_value (d a : float) (u v : xreal) :
  float_value d = Some u -> float_value a = Some v ->
  ((d <=? a) = true <-> xle u v).
Proof.
  unfold float_value, xle. intros Hu Hv. rewrite leb_spec. unfold SFleb.
  rewrite (SFcompare_value _ _ u v (Prim2SF_valid d) (Prim2SF_valid a) Hu Hv).
  destruct (xcompare u v); split; congruence.
Qed.

Lemma ltb_value (d a : float) (u v : xreal) :
  float_value d = Some u -> float_value a = Some v ->
  ((d <? a) = true <-> xlt u v).
Proof.
  unfold float_value, xlt. intros Hu Hv. rewrite ltb_spec. unfold SFltb.
  rewrite (SFcompare_value _ _ u v (Prim2SF_valid d) (Prim2SF_valid a) Hu Hv).
  destruct (xcompare u v); split; congruence.
Qed.

Lemma xcompare_antisym (u v : xreal) : xcompare v u = CompOpp (xcompare u v).
Proof.
  destruct u, v; simpl; try reflexivity. symmetry. apply Qcompare_antisym.
Qed.

Lemma xlt_not_xle (u v : xreal) : xlt u v <-> ~ xle v u.
Proof.
  unfold xlt, xle. rewrite (xcompare_antisym u v).
  destruct (xcompare u v); simpl; split; try congruence; intros H; exfalso; apply H; congruence.
Qed.

(** A value is a number exactly when the float is not NaN. *)
Lemma float_value_is_Some (d : float) : is_nan d = false <-> is_Some (float_value d).
Proof.
  rewrite is_nan_false_spec. unfold float_value.
  destruct (Prim2SF d); simpl; split; intros H; try congruence; eauto;
    destruct H; congruence.
Qed.

(** The thresholds stand for -40, -20 and -8, and [0.0] for 0. *)
Lemma xle_proper_r (u : xreal) (q r : Q) : (q == r)%Q -> xle u (Fin q) <-> xle u (Fin r).
Proof.
  intros H. unfold xle. destruct u; simpl; try tauto. now rewrite H.
Qed.

Lemma xlt_proper_l (u : xreal) (q r : Q) : (q == r)%Q -> xlt (Fin q) u <-> xlt (Fin r) u.
Proof.
  intros H. unfold xlt. destruct u; simpl; try tauto. now rewrite H.
Qed.

End FloatOrder.

(** ** The classifier *)

Module Classifier.

Import FloatOrder.
Local Open Scope float_scope.

Lemma xle_trans_Fin (v : xreal) (q r : Q) :
  xle v (Fin q) -> (q <= r)%Q -> xle v (Fin r).
Proof.
  unfold xle. destruct v as [|p|]; simpl; try congruence.
  rewrite <- !Qle_alt. intros H1 H2. now apply Qle_trans with q.
Qed.

Lemma threshold_quiet_value :
  exists q, float_value THRESHOLDS_quiet = Some (Fin q) /\ (q == -40)%Q.
Proof. eexists. split; reflexivity. Qed.

Lemma threshold_moderate_value :
  exists q, float_value THRESHOLDS_moderate = Some (Fin q) /\ (q == -20)%Q.
Proof. eexists. split; reflexivity. Qed.

Lemma threshold_loud_value :
  exists q, float_value THRESHOLDS_loud = Some (Fin q) /\ (q == -8)%Q.
Proof. eexists. split; reflexivity. Qed.

Lemma zero_value : float_value 0 = Some (Fin 0).
Proof. reflexivity. Qed.

(** Each comparison of the chain, read on the number [d] stands for. *)
Lemma leb_threshold (d t : float) (v : xreal) (q r : Q) :
  float_value d = Some v -> float_value t = Some (Fin q) -> (q == r)%Q ->
  ((d <=? t) = true <-> xle v (Fin r)).
Proof.
  intros Hd Ht Hq. rewrite (leb_value d t v (Fin q) Hd Ht).
  now apply xle_proper_r.
Qed.

(** The label of a value that is a number, by the three comparisons. *)
Lemma classify_db_cases (d : float) (v : xreal) :
  float_value d = Some v ->
  (xle v (Fin (-40)) /\ classify_db d = ("Quiet"%string, GREEN)) \/
  (~ xle v (Fin (-40)) /\ xle v (Fin (-20)) /\ classify_db d = ("Moderate"%string, YELLOW)) \/
  (~ xle v (Fin (-20)) /\ xle v (Fin (-8)) /\ classify_db d = ("Loud"%string, MAGENTA)) \/
  (~ xle v (Fin (-8)) /\ classify_db d = ("Very Loud"%string, RED)).
Proof.
  intros Hd.
  destruct threshold_quiet_value as (q1 & Ht1 & Hq1).
  destruct threshold_moderate_value as (q2 & Ht2 & Hq2).
  destruct threshold_loud_value as (q3 & Ht3 & Hq3).
  pose proof (leb_threshold d _ v q1 _ Hd Ht1 Hq1) as H1.
  pose proof (leb_threshold d _ v q2 _ Hd Ht2 Hq2) as H2.
  pose proof (leb_threshold d _ v q3 _ Hd Ht3 Hq3) as H3.
  unfold classify_db.
  destruct (d <=? THRESHOLDS_quiet).
  { left. split; [now apply H1 | reflexivity]. }
  right. destruct (d <=? THRESHOLDS_moderate).
  { left. split; [|split; [now apply H2 | reflexivity]].
    intros H%H1. discriminate. }
  right. destruct (d <=? THRESHOLDS_loud).
  { left. split; [|split; [now apply H3 | reflexivity]].
    intros H%H2. discriminate. }
  right. split; [|reflexivity]. intros H%H3. discriminate.
Qed.

(** C1. For every decibel value [d] that is a number [v] (not NaN),
    [classify_db] gives exactly one band, with exact boundaries:
    Quiet exactly when [v <= -40], Moderate exactly when [-40 < v <= -20],
    Loud exactly when [-20 < v <= -8], Very Loud exactly when [-8 < v];
    the label is always one of the four. *)
Theorem classify_db_bands (d : float) (v : xreal) :
  float_value d = Some v ->
  ((classify_db d).1 = "Quiet"%string <-> xle v (Fin (-40))) /\
  ((classify_db d).1 = "Moderate"%string <-> xlt (Fin (-40)) v /\ xle v (Fin (-20))) /\
  ((classify_db d).1 = "Loud"%string <-> xlt (Fin (-20)) v /\ xle v (Fin (-8))) /\
  ((classify_db d).1 = "Very Loud"%string <-> xlt (Fin (-8)) v) /\
  (classify_db d).1 ∈ ["Quiet"; "Moderate"; "Loud"; "Very Loud"]%string.
Proof.
  intros Hd. rewrite !xlt_not_xle.
  assert (M12 : xle v (Fin (-40)) -> xle v (Fin (-20)))
    by (intros H; apply (xle_trans_Fin v _ _ H); discriminate).
  assert (M23 : xle v (Fin (-20)) -> xle v (Fin (-8)))
    by (intros H; apply (xle_trans_Fin v _ _ H); discriminate).
  destruct (classify_db_cases d v Hd)
    as [(P1 & ->)|[(N1 & P2 & ->)|[(N2 & P3 & ->)|(N3 & ->)]]]; simpl;
    repeat split; try discriminate; try tauto; set_solver.
Qed.

Lemma classify_db_bands_witness :
  exists v, float_value (-15) = Some v /\
    ((classify_db (-15)).1 = "Loud"%string
     <-> xlt (Fin (-20)) v /\ xle v (Fin (-8))).
Proof.
  eexists. split; [reflexivity|].
  exact (proj1 (proj2 (proj2 (classify_db_bands (-15) _ eq_refl)))).
Defined.

(** C9. A NaN decibel value fails the three comparisons and gets the band
    of the final [else], Very Loud: [classify_db] is a total function, so a
    value that is not a number gets a band too and nothing is raised. *)
Theorem classify_db_nan (d : float) :
  is_nan d = true -> classify_db d = ("Very Loud"%string, RED).
Proof.
  intros Hd. unfold classify_db. now rewrite !leb_nan_l.
Qed.

Lemma classify_db_nan_witness :
  is_nan nan = true /\ classify_db nan = ("Very Loud"%string, RED).
Proof.
  split; [reflexivity|]. apply (classify_db_nan nan). reflexivity.
Defined.

(** The label is one of the four, whatever the float. *)
Lemma classify_db_label (d : float) :
  classify_db d = ("Quiet"%string, GREEN) \/
  classify_db d = ("Moderate"%string, YELLOW) \/
  classify_db d = ("Loud"%string, MAGENTA) \/
  classify_db d = ("Very Loud"%string, RED).
Proof.
  unfold classify_db.
  destruct (d <=? THRESHOLDS_quiet); [tauto|].
  destruct (d <=? THRESHOLDS_moderate); [tauto|].
  destruct (d <=? THRESHOLDS_loud); tauto.
Qed.

Lemma getitem_CATEGORIES_label (d : float) (st : state) :
  exists folder,
    CATEGORIES !! (classify_db d).1 = Some folder /\
    getitem CATEGORIES (classify_db d).1 st = (st, Return folder).
Proof.
  destruct (classify_db_label d) as [-> | [-> | [-> | ->]]];
    eexists; split; reflexivity.
Qed.

(** C10. Every label [classify_db] returns is a key of [CATEGORIES]: the
    lookup of line 123 finds a folder and raises no [KeyError]. *)
Theorem CATEGORIES_has_every_label (d : float) (st : state) :
  exists folder,
    CATEGORIES !! (classify_db d).1 = Some folder /\
    getitem CATEGORIES (classify_db d).1 st = (st, Return folder).
Proof. exact (getitem_CATEGORIES_label d st). Qed.

End Classifier.

(** ** The level estimator *)

Module LevelEstimator.

Import FloatOrder.
Local Open Scope float_scope.

Section WithLog10.

Variable libm_log10 : float -> float.

(** On a positive level the guard fails, the division by the reference
    [1.0] is exact and [math.log10] returns. *)
Lemma rms_to_dbfs_positive (r : float) (st : state) :
  (0 <? r) = true ->
  rms_to_dbfs libm_log10 r 1 st = (st, Return (20 * libm_log10 r)).
Proof.
  intros Hr. pose proof (ltb_leb_false 0 r Hr) as Hle.
  unfold rms_to_dbfs, bind, truediv, math_log10. rewrite Hle.
  change (1 =? 0) with false. cbv beta iota. unfold ret at 1.
  rewrite div_one, Hle. reflexivity.
Qed.

Lemma rms_to_dbfs_nonpositive (r : float) (st : state) :
  (r <=? 0) = true -> rms_to_dbfs libm_log10 r 1 st = (st, Return neg_infinity).
Proof.
  intros Hr. unfold rms_to_dbfs. rewrite Hr. reflexivity.
Qed.

(** With the default reference [rms_to_dbfs] returns on every level, NaN
    included. *)
Lemma rms_to_dbfs_total (r : float) (st : state) :
  rms_to_dbfs libm_log10 r 1 st = (st, Return (dbfs libm_log10 r)).
Proof.
  unfold rms_to_dbfs, dbfs, bind, truediv, math_log10.
  destruct (r <=? 0) eqn:Hle; [reflexivity|].
  change (1 =? 0) with false. cbv beta iota. unfold ret at 1.
  rewrite div_one, Hle. reflexivity.
Qed.

(** C2. With the default reference [1.0]: on a level that stands for a
    number above zero, [rms_to_dbfs] returns [20 * log10 r]; on a level that
    stands for zero or less it returns negative infinity. It raises in
    neither case. *)
Theorem rms_to_dbfs_spec (r : float) (v : xreal) (st : state) :
  float_value r = Some v ->
  (xlt (Fin 0) v ->
   rms_to_dbfs libm_log10 r 1 st = (st, Return (20 * libm_log10 r))) /\
  (xle v (Fin 0) ->
   rms_to_dbfs libm_log10 r 1 st = (st, Return neg_infinity) /\
   float_value neg_infinity = Some NegInf).
Proof.
  intros Hv. split.
  - intros H. apply rms_to_dbfs_positive.
    now apply (ltb_value 0 r (Fin 0) v eq_refl Hv).
  - intros H. split; [|reflexivity]. apply rms_to_dbfs_nonpositive.
    now apply (leb_value r 0 v (Fin 0) Hv eq_refl).
Qed.

End WithLog10.

Lemma rms_to_dbfs_spec_witness :
  exists v, float_value 0.5 = Some v /\
    (xlt (Fin 0) v ->
     rms_to_dbfs (fun x => x) 0.5 1 (mkState None [])
     = (mkState None [], Return (20 * 0.5))).
Proof.
  eexists. split; [reflexivity|].
  exact (proj1 (rms_to_dbfs_spec (fun x => x) 0.5 _ (mkState None []) eq_refl)).
Defined.

End LevelEstimator.

(** ** The wallpaper selector *)

Module Selector.

Local Open Scope string_scope.

Lemma os_path_exists_spec (w : world) (path : string) :
  os_path_exists w path = match fs w !! path with Some _ => true | None => false end.
Proof.
  unfold os_path_exists. destruct (fs w !! path) eqn:E.
  - apply bool_decide_eq_true_2. eauto.
  - apply bool_decide_eq_false_2. intros [x Hx]. discriminate.
Qed.

Lemma random_choice_nonempty (w : world) (seq : list string) (st : state) :
  seq <> [] ->
  exists x, seq !! (random_bits w mod length seq)%nat = Some x /\
            x ∈ seq /\ random_choice w seq st = (st, Return x).
Proof.
  intros Hne.
  assert (Hlt : (random_bits w mod length seq < length seq)%nat).
  { apply Nat.mod_upper_bound. destruct seq; [congruence|discriminate]. }
  destruct (lookup_lt_is_Some_2 seq _ Hlt) as [x Hx].
  exists x. split; [exact Hx|]. split.
  - eapply list_elem_of_lookup_2. exact Hx.
  - unfold random_choice. rewrite Hx. reflexivity.
Qed.

(** The four ways through [get_random_wallpaper]. *)
Lemma get_random_wallpaper_cases (w : world) (folder : string) (st : state) :
  match fs w !! folder with
  | None =>
      get_random_wallpaper w folder st
      = (logged st [Call_get_random_wallpaper folder; Print RED (FolderNotFound folder)],
         Return None)
  | Some File =>
      get_random_wallpaper w folder st
      = (logged st [Call_get_random_wallpaper folder], Raise (OSError "NotADirectoryError"))
  | Some (Dir entries) =>
      match image_entries entries with
      | [] =>
          get_random_wallpaper w folder st
          = (logged st [Call_get_random_wallpaper folder; Print RED (NoImagesFound folder)],
             Return None)
      | files =>
          exists choice,
            files !! (random_bits w mod length files)%nat = Some choice /\
            get_random_wallpaper w folder st
            = (logged st [Call_get_random_wallpaper folder],
               Return (Some (os_path_join folder choice)))
      end
  end.
Proof.
  unfold get_random_wallpaper, bind, print, emit, logged.
  rewrite os_path_exists_spec.
  change (filter _ ?l) with (image_entries l).
  unfold os_listdir.
  destruct (fs w !! folder) as [[|entries]|] eqn:E; cbn [negb].
  - reflexivity.
  - unfold ret. cbv beta iota.
    set (st1 := {| current_label := _; trace := _ |}).
    destruct (image_entries entries) as [|f files] eqn:F.
    + subst st1. cbn [current_label trace]. rewrite <- app_assoc. reflexivity.
    + destruct (random_choice_nonempty w (f :: files) st1 ltac:(discriminate))
        as (x & Hx & _ & Hr).
      exists x. split; [exact Hx|]. rewrite Hr. reflexivity.
  - unfold ret. cbn [current_label trace]. rewrite <- app_assoc. reflexivity.
Qed.


Lemma image_entries_spec (entries : list string) (name : string) :
  name ∈ image_entries entries
  <-> endswith_any (lower name) IMAGE_SUFFIXES = true /\ name ∈ entries.
Proof.
  unfold image_entries. rewrite list_elem_of_filter, Is_true_true. reflexivity.
Qed.

Lemma image_entries_none (entries : list string) :
  Forall (fun f => endswith_any (lower f) IMAGE_SUFFIXES = false) entries ->
  image_entries entries = [].
Proof.
  intros H. destruct (image_entries entries) as [|f files] eqn:F; [reflexivity|].
  assert (Hf : f ∈ image_entries entries) by (rewrite F; left).
  apply image_entries_spec in Hf as [Hs Hin].
  rewrite Forall_forall in H. apply H in Hin. congruence.
Qed.

(** What is returned is a path, [None] or an exception, and the only
    events are the call and at most one warning. *)
Lemma get_random_wallpaper_path_inv (w : world) (folder : string)
    (st st' : state) (path : string) :
  get_random_wallpaper w folder st = (st', Return (Some path)) ->
  exists entries name,
    fs w !! folder = Some (Dir entries) /\ name ∈ image_entries entries /\
    path = os_path_join folder name /\
    st' = logged st [Call_get_random_wallpaper folder].
Proof.
  intros H. pose proof (get_random_wallpaper_cases w folder st) as Hc.
  destruct (fs w !! folder) as [[|entries]|]; try congruence.
  destruct (image_entries entries) as [|f files] eqn:F; try congruence.
  destruct Hc as (choice & Hl & Hr). rewrite Hr in H.
  injection H as <- <-. exists entries, choice.
  repeat split; try reflexivity. rewrite F.
  eapply list_elem_of_lookup_2. exact Hl.
Qed.

(** The part of the selector's contract that the code keeps. Whatever
    [get_random_wallpaper] returns as a path is [os.path.join] of the
    requested folder and the name of one of the entries [os.listdir] gives
    for that folder, and the lower-cased name ends in [.jpg], [.jpeg],
    [.png] or [.bmp]. For a folder whose entries are exactly [a.png] and
    [b.txt] the result is the path of [a.png], whatever the random choice.
    That the entry is a regular file is not part of it: see the lemma on
    the world [w_subdir] below. *)
Theorem get_random_wallpaper_path (w : world) (folder : string) (st : state) :
  (forall st' path,
     get_random_wallpaper w folder st = (st', Return (Some path)) ->
     exists entries name,
       fs w !! folder = Some (Dir entries) /\ name ∈ entries /\
       endswith_any (lower name) IMAGE_SUFFIXES = true /\
       path = os_path_join folder name) /\
  (fs w !! folder = Some (Dir ["a.png"; "b.txt"]) ->
   get_random_wallpaper w folder st
   = (logged st [Call_get_random_wallpaper folder],
      Return (Some (os_path_join folder "a.png")))).
Proof.
  split.
  - intros st' path H.
    destruct (get_random_wallpaper_path_inv w folder st st' path H)
      as (entries & name & Hf & Hn & Hp & _).
    apply image_entries_spec in Hn as [Hs Hin]. eauto 10.
  - intros Hf. pose proof (get_random_wallpaper_cases w folder st) as Hc.
    rewrite Hf in Hc. change (image_entries ["a.png"; "b.txt"]) with ["a.png"] in Hc.
    destruct Hc as (choice & Hl & Hr). rewrite Hr.
    apply list_elem_of_lookup_2 in Hl. apply list_elem_of_singleton in Hl.
    now subst choice.
Qed.

Lemma get_random_wallpaper_path_witness :
  get_random_wallpaper w_loud "wallpapers/loud" (mkState None [])
  = (mkState None [Call_get_random_wallpaper "wallpapers/loud"],
     Return (Some "wallpapers/loud/a.png")).
Proof.
  exact (proj2 (get_random_wallpaper_path w_loud "wallpapers/loud" (mkState None []))
               eq_refl).
Defined.

(** C3, at the failing input: the code breaks the claim, and its own
    docstring. The docstring of [get_random_wallpaper] reads "Pick a random
    image file from a folder" and the claim says that a returned path names
    a file, not a directory. The list comprehension of lines 63-64 tests
    the name of each entry of [os.listdir] and nothing else, so in a Loud
    folder whose only entry is a subdirectory named [pics.png] the selector
    returns the path of that subdirectory, which is a directory and not a
    file. *)
Lemma get_random_wallpaper_returns_directory :
  get_random_wallpaper w_subdir "wallpapers/loud" (mkState None [])
  = (mkState None [Call_get_random_wallpaper "wallpapers/loud"],
     Return (Some "wallpapers/loud/pics.png")) /\
  fs w_subdir !! "wallpapers/loud/pics.png" = Some (Dir []) /\
  fs w_subdir !! "wallpapers/loud/pics.png" <> Some File.
Proof.
  split; [reflexivity|]. split; [reflexivity|]. discriminate.
Qed.

(** On a folder with nothing to offer the selector warns and returns
    [None]. *)
Lemma get_random_wallpaper_unavailable (w : world) (folder : string) (st : state) :
  unavailable w folder ->
  get_random_wallpaper w folder st
  = (logged st [Call_get_random_wallpaper folder;
                Print RED (selector_warning w folder)],
     Return None).
Proof.
  intros Hu. pose proof (get_random_wallpaper_cases w folder st) as Hc.
  unfold selector_warning.
  destruct Hu as [Hn|(entries & Hd & Hall)].
  - rewrite Hn in *. exact Hc.
  - rewrite Hd in *. rewrite (image_entries_none entries Hall) in Hc. exact Hc.
Qed.

End Selector.

(** ** The wallpaper applier *)

Module Applier.

Local Open Scope string_scope.

(** The five ways through [set_wallpaper]. *)
Lemma set_wallpaper_cases (w : world) (image_path : string) (st : state) :
  let abs_path := os_path_abspath w image_path in
  set_wallpaper w image_path st =
  if os_path_exists w abs_path then
    match platform_mechanism (platform_system w) abs_path with
    | None =>
        (logged st [Call_set_wallpaper image_path; Print RED UnsupportedOS], Return tt)
    | Some c =>
        match platform_outcome w c with
        | None => (logged st [Call_set_wallpaper image_path; Platform c], Return tt)
        | Some e =>
            if is_Exception e then
              (logged st [Call_set_wallpaper image_path; Platform c;
                          Print RED (ErrorChangingWallpaper e)], Return tt)
            else (logged st [Call_set_wallpaper image_path; Platform c], Raise e)
        end
    end
  else
    (logged st [Call_set_wallpaper image_path; Print RED (WallpaperNotFound abs_path)],
     Return tt).
Proof.
  intros abs_path.
  unfold set_wallpaper, bind, print, emit, logged, platform_mechanism,
    try_except_Exception, run_platform, bind, emit.
  fold abs_path. cbn [current_label trace].
  destruct (os_path_exists w abs_path); cbn [negb].
  - destruct (String.eqb (platform_system w) "Windows");
      [|destruct (String.eqb (platform_system w) "Darwin");
        [|destruct (String.eqb (platform_system w) "Linux")]];
      cbn [current_label trace]; rewrite <- ?app_assoc; try reflexivity;
      match goal with
      | |- context [platform_outcome w ?c] =>
          destruct (platform_outcome w c) as [e|]; unfold raise, ret;
          [destruct (is_Exception e)|]; cbn [current_label trace];
          rewrite <- ?app_assoc; reflexivity
      end.
  - cbn [current_label trace]. rewrite <- app_assoc. reflexivity.
Qed.


(** C7. [set_wallpaper] gives control back whatever happens to the
    wallpaper, provided the platform mechanism raises nothing but errors
    (exceptions deriving from [Exception], what [except Exception] catches):
    it returns, having logged the call; when the path does not exist the
    only thing it does is report that, so no platform mechanism is run; and
    when the mechanism it runs raises [e], the only thing that follows the
    attempt is the report of [e]. *)
Theorem set_wallpaper_never_raises (w : world) (image_path : string) (st : state) :
  (forall c e, platform_outcome w c = Some e -> is_Exception e = true) ->
  exists evs,
    set_wallpaper w image_path st
    = (logged st (Call_set_wallpaper image_path :: evs), Return tt) /\
    (os_path_exists w (os_path_abspath w image_path) = false ->
     evs = [Print RED (WallpaperNotFound (os_path_abspath w image_path))]) /\
    (forall c e, Platform c ∈ evs -> platform_outcome w c = Some e ->
                 evs = [Platform c; Print RED (ErrorChangingWallpaper e)]).
Proof.
  intros Hexc. rewrite set_wallpaper_cases.
  destruct (os_path_exists w (os_path_abspath w image_path)) eqn:Hex.
  - destruct (platform_mechanism _ _) as [c|] eqn:Hm.
    + destruct (platform_outcome w c) as [e|] eqn:Ho.
      * rewrite (Hexc c e Ho). eexists. split; [reflexivity|]. split; [discriminate|].
        intros c' e' Hin Ho'. apply list_elem_of_In in Hin.
        destruct Hin as [Hc|[Hc|[]]]; [|discriminate].
        injection Hc as <-. congruence.
      * eexists. split; [reflexivity|]. split; [discriminate|].
        intros c' e' Hin Ho'. apply list_elem_of_singleton in Hin.
        injection Hin as ->. congruence.
    + eexists. split; [reflexivity|]. split; [discriminate|].
      intros c' e' Hin. apply list_elem_of_singleton in Hin. discriminate.
  - eexists. split; [reflexivity|]. split; [reflexivity|].
    intros c' e' Hin. apply list_elem_of_singleton in Hin. discriminate.
Qed.

Lemma set_wallpaper_never_raises_witness :
  exists evs,
    set_wallpaper w_denied "C:/walls/a.png" (mkState None [])
    = (logged (mkState None []) (Call_set_wallpaper "C:/walls/a.png" :: evs), Return tt) /\
    (os_path_exists w_denied (os_path_abspath w_denied "C:/walls/a.png") = false ->
     evs = [Print RED (WallpaperNotFound (os_path_abspath w_denied "C:/walls/a.png"))]) /\
    (forall c e, Platform c ∈ evs -> platform_outcome w_denied c = Some e ->
                 evs = [Platform c; Print RED (ErrorChangingWallpaper e)]).
Proof.
  apply (set_wallpaper_never_raises w_denied "C:/walls/a.png" (mkState None [])).
  intros c e H. injection H as <-. reflexivity.
Defined.

End Applier.

(** ** The monitor loop *)

Module Monitor.

Import Selector Applier.
Local Open Scope string_scope.
Local Open Scope list_scope.

Lemma logged_logged (st : state) (a b : list event) :
  logged (logged st a) b = logged st (a ++ b).
Proof. unfold logged. cbn [current_label trace]. now rewrite app_assoc. Qed.

Lemma logged_nil (st : state) (a : list event) :
  logged (logged st a) [] = logged st a.
Proof. rewrite logged_logged. now rewrite app_nil_r. Qed.

Ltac norm_logged :=
  rewrite ?logged_logged; cbn [sleep_of app];
  rewrite <- ?app_assoc, ?app_nil_r; cbn [app].

(** *** One iteration *)

Lemma on_db_value_unchanged (w : world) (db : float) (st : state)
    (label : string) (color : Fore) :
  classify_db db = (label, color) -> current_label st = Some label ->
  on_db_value w db st = (logged st [Sleep], Return tt).
Proof.
  intros Hc Hl. unfold on_db_value. rewrite Hc.
  unfold bind, get_current_label. rewrite Hl.
  rewrite bool_decide_eq_true_2 by reflexivity. reflexivity.
Qed.

Lemma on_db_value_changed (w : world) (db : float) (st : state)
    (label : string) (color : Fore) :
  classify_db db = (label, color) -> current_label st <> Some label ->
  exists folder,
    CATEGORIES !! label = Some folder /\
    on_db_value w db st
    = after_selection w
        (get_random_wallpaper w folder
           (mkState (Some label) (trace st ++ [Print color (BandChange label db)]))).
Proof.
  intros Hc Hl.
  destruct (Classifier.getitem_CATEGORIES_label db
              (mkState (Some label) (trace st ++ [Print color (BandChange label db)])))
    as (folder & Hf & Hg).
  rewrite Hc in Hf, Hg. cbn [fst] in Hf, Hg.
  exists folder. split; [exact Hf|].
  unfold on_db_value. rewrite Hc.
  unfold bind at 1. unfold get_current_label.
  rewrite bool_decide_eq_false_2 by congruence. cbn [negb].
  unfold bind at 1. unfold bind at 1. unfold set_current_label.
  unfold bind at 1. unfold print, emit. cbn [current_label trace].
  unfold bind at 1. rewrite Hg.
  unfold bind at 1. unfold after_selection.
  destruct (get_random_wallpaper w folder _) as [st2 [[path|]|e]]; try reflexivity.
  destruct (truthy (Some path)); [|reflexivity].
  destruct (set_wallpaper w path st2) as [st3 [[]|e]]; reflexivity.
Qed.


(** *** The events of one iteration *)

Lemma selection_shape (w : world) (folder : string) (st : state) :
  exists sel r,
    get_random_wallpaper w folder st
    = (logged st (Call_get_random_wallpaper folder :: sel), r) /\
    Forall (fun e => inner e = true) sel /\
    Forall (fun e => is_platform e = false) sel /\
    Forall (fun e => is_application e = false) sel /\
    Print RED UnsupportedOS ∉ sel.
Proof.
  pose proof (get_random_wallpaper_cases w folder st) as Hc.
  destruct (fs w !! folder) as [[|entries]|].
  - exists [], (Raise (OSError "NotADirectoryError")).
    split; [exact Hc|]. repeat split; try constructor. apply not_elem_of_nil.
  - destruct (image_entries entries) as [|f files].
    + exists [Print RED (NoImagesFound folder)], (Return None).
      split; [exact Hc|]. repeat split; repeat constructor.
      intros H%list_elem_of_singleton. discriminate.
    + destruct Hc as (choice & _ & Hr).
      exists [], (Return (Some (os_path_join folder choice))).
      split; [exact Hr|]. repeat split; try constructor. apply not_elem_of_nil.
  - exists [Print RED (FolderNotFound folder)], (Return None).
    split; [exact Hc|]. repeat split; repeat constructor.
    intros H%list_elem_of_singleton. discriminate.
Qed.

Lemma application_shape (w : world) (image_path : string) (st : state) :
  exists app r,
    set_wallpaper w image_path st
    = (logged st (Call_set_wallpaper image_path :: app), r) /\
    Forall (fun e => inner e = true) app.
Proof.
  rewrite set_wallpaper_cases.
  destruct (os_path_exists w _).
  - destruct (platform_mechanism _ _) as [c|].
    + destruct (platform_outcome w c) as [e|]; [destruct (is_Exception e)|];
        eexists _, _; (split; [reflexivity|]); repeat constructor.
    + eexists _, _; (split; [reflexivity|]); repeat constructor.
  - eexists _, _; (split; [reflexivity|]); repeat constructor.
Qed.

(** An iteration that sees a new band: the report of the band, the call of
    the selector, events of the selector and the applier, and the sleep
    when nothing was raised. *)
Lemma iteration_shape (w : world) (db : float) (st : state)
    (label : string) (color : Fore) :
  classify_db db = (label, color) -> current_label st <> Some label ->
  exists folder mid r,
    CATEGORIES !! label = Some folder /\
    on_db_value w db st
    = (mkState (Some label)
         (trace st ++ Print color (BandChange label db)
                   :: Call_get_random_wallpaper folder :: mid ++ sleep_of r), r) /\
    Forall (fun e => inner e = true) mid.
Proof.
  intros Hc Hl.
  destruct (on_db_value_changed w db st label color Hc Hl) as (folder & Hf & ->).
  set (st1 := mkState (Some label) (trace st ++ [Print color (BandChange label db)])).
  destruct (selection_shape w folder st1) as (sel & rsel & -> & Hsel & _).
  exists folder.
  assert (Hbase : forall (r : result unit) mid,
            logged (logged st1 (Call_get_random_wallpaper folder :: mid)) (sleep_of r)
            = mkState (Some label)
                (trace st ++ Print color (BandChange label db)
                          :: Call_get_random_wallpaper folder :: mid ++ sleep_of r)).
  { intros r mid. unfold logged, st1. cbn [current_label trace].
    rewrite <- !app_assoc. reflexivity. }
  destruct rsel as [[path|]|e]; cbn [after_selection].
  - destruct (truthy (Some path)).
    + destruct (application_shape w path (logged st1 (Call_get_random_wallpaper folder :: sel)))
        as (aev & rapp & -> & Happ).
      exists (sel ++ Call_set_wallpaper path :: aev)%list.
      assert (Hmid : Forall (fun e => inner e = true) (sel ++ Call_set_wallpaper path :: aev)%list)
        by (apply Forall_app; split; [assumption|constructor; [reflexivity|assumption]]).
      destruct rapp as [[]|e].
      * exists (Return tt). split; [exact Hf|]. split; [|exact Hmid].
        rewrite <- (Hbase (Return tt)). norm_logged. reflexivity.
      * exists (Raise e). split; [exact Hf|]. split; [|exact Hmid].
        rewrite <- (Hbase (Raise e)). norm_logged. reflexivity.
    + exists sel, (Return tt). split; [exact Hf|]. split; [|exact Hsel].
      now rewrite <- (Hbase (Return tt)).
  - exists sel, (Return tt). split; [exact Hf|]. split; [|exact Hsel].
    now rewrite <- (Hbase (Return tt)).
  - exists sel, (Raise e). split; [exact Hf|]. split; [|exact Hsel].
    rewrite <- (Hbase (Raise e)). cbn [sleep_of]. now rewrite logged_nil.
Qed.


(** *** Counting in traces *)

Lemma selection_attempts_app (a b : list event) :
  selection_attempts (a ++ b) = (selection_attempts a + selection_attempts b)%nat.
Proof. unfold selection_attempts. now rewrite filter_app, length_app. Qed.

Lemma selection_attempts_inner (evs : list event) :
  Forall (fun e => inner e = true) evs -> selection_attempts evs = 0%nat.
Proof.
  induction 1 as [|e evs He _ IH]; [reflexivity|].
  change (e :: evs) with ([e] ++ evs). rewrite selection_attempts_app, IH.
  destruct e; try discriminate He; reflexivity.
Qed.

Lemma sleeps_app (a b : list event) : sleeps (a ++ b) = (sleeps a + sleeps b)%nat.
Proof. unfold sleeps. now rewrite filter_app, length_app. Qed.

Lemma sleeps_inner (evs : list event) :
  Forall (fun e => inner e = true) evs -> sleeps evs = 0%nat.
Proof.
  induction 1 as [|e evs He _ IH]; [reflexivity|].
  change (e :: evs) with ([e] ++ evs). rewrite sleeps_app, IH.
  destruct e; try discriminate He; reflexivity.
Qed.

Lemma band_changes_app (n : nat) (a b : list event) :
  band_changes n (a ++ b) = (band_changes n a ++ band_changes (n + sleeps a) b)%list.
Proof.
  revert n. induction a as [|e a IH]; intros n.
  - cbn. now rewrite Nat.add_0_r.
  - destruct e as [c m| | | | |]; cbn [app band_changes].
    + destruct m; rewrite IH; reflexivity.
    + rewrite IH. reflexivity.
    + rewrite IH. reflexivity.
    + rewrite IH. reflexivity.
    + rewrite IH. reflexivity.
    + rewrite IH. change (Sleep :: a) with ([Sleep] ++ a). rewrite sleeps_app.
      change (sleeps [Sleep]) with 1%nat. now rewrite Nat.add_succ_r.
Qed.

Lemma band_changes_inner (n : nat) (evs : list event) :
  Forall (fun e => inner e = true) evs -> band_changes n evs = [].
Proof.
  induction 1 as [|e evs He _ IH]; [reflexivity|].
  destruct e as [c m| | | | |]; try discriminate He; cbn [band_changes]; try exact IH.
  destruct m; try discriminate He; exact IH.
Qed.

(** What an iteration that returns adds to the band changes of a trace. *)
Lemma iteration_changes (w : world) (db : float) (st st' : state)
    (label : string) (color : Fore) :
  classify_db db = (label, color) ->
  on_db_value w db st = (st', Return tt) ->
  current_label st' = Some label /\
  sleeps (trace st') = S (sleeps (trace st)) /\
  band_changes 1 (trace st')
  = (band_changes 1 (trace st)
     ++ if bool_decide (current_label st = Some label) then []
        else [(S (sleeps (trace st)), label)])%list.
Proof.
  intros Hc Hr. case_bool_decide as Hl.
  - rewrite (on_db_value_unchanged w db st label color Hc Hl) in Hr.
    injection Hr as <-. unfold logged. cbn [current_label trace].
    rewrite sleeps_app, band_changes_app.
    change (sleeps [Sleep]) with 1%nat. cbn [band_changes].
    split; [assumption|]. split; [lia|reflexivity].
  - destruct (iteration_shape w db st label color Hc Hl)
      as (folder & mid & r & _ & Hs & Hmid).
    rewrite Hs in Hr. injection Hr as <- ->. cbn [current_label trace sleep_of].
    split; [reflexivity|].
    change (Print color (BandChange label db) :: Call_get_random_wallpaper folder
              :: mid ++ [Sleep])%list
      with ([Print color (BandChange label db); Call_get_random_wallpaper folder]
              ++ mid ++ [Sleep])%list.
    rewrite !sleeps_app, !band_changes_app, (sleeps_inner mid Hmid),
      (band_changes_inner _ mid Hmid).
    change (sleeps [Sleep]) with 1%nat.
    change (sleeps [Print color (BandChange label db);
                    Call_get_random_wallpaper folder]) with 0%nat.
    cbn [band_changes app]. split; [lia|]. reflexivity.
Qed.


(** *** The loop *)

Section WithNumerics.

Variable libm_log10 : float -> float.
Variable np_rms : list float -> float.

(** The level of a block always converts, so an iteration is what it does
    with the decibel value. *)
Lemma loop_body_on_db_value (w : world) (block : list float) (st : state) :
  loop_body libm_log10 np_rms w block st
  = on_db_value w (dbfs libm_log10 (np_rms block)) st.
Proof.
  unfold loop_body, bind. now rewrite LevelEstimator.rms_to_dbfs_total.
Qed.

(** C4. In every iteration of the loop, with [db] the decibel value of the
    block: when the band of [db] differs from the current band, the current
    band becomes that band and the selector is called exactly once; when it
    is the same, the current band stays, the selector is not called, and
    the iteration only sleeps. *)
Theorem band_transition_selects_once (w : world) (block : list float) (st : state) :
  exists db st' r evs,
    rms_to_dbfs libm_log10 (np_rms block) 1 st = (st, Return db) /\
    loop_body libm_log10 np_rms w block st = (st', r) /\
    trace st' = trace st ++ evs /\
    (current_label st <> Some (classify_db db).1 ->
     current_label st' = Some (classify_db db).1 /\
     selection_attempts evs = 1%nat) /\
    (current_label st = Some (classify_db db).1 ->
     current_label st' = current_label st /\
     selection_attempts evs = 0%nat /\ evs = [Sleep] /\ r = Return tt).
Proof.
  exists (dbfs libm_log10 (np_rms block)).
  rewrite loop_body_on_db_value, LevelEstimator.rms_to_dbfs_total.
  destruct (classify_db (dbfs libm_log10 (np_rms block))) as [label color] eqn:Hc.
  cbn [fst].
  destruct (decide (current_label st = Some label)) as [Hl|Hl].
  - rewrite (on_db_value_unchanged w _ st label color Hc Hl).
    exists (logged st [Sleep]), (Return tt), [Sleep].
    split; [reflexivity|]. split; [reflexivity|]. split; [reflexivity|].
    split; [congruence|]. intros _. repeat split; reflexivity.
  - destruct (iteration_shape w _ st label color Hc Hl)
      as (folder & mid & r & _ & -> & Hmid).
    eexists _, r, _. split; [reflexivity|]. split; [reflexivity|].
    split; [reflexivity|]. split; [|congruence]. intros _. split; [reflexivity|].
    change (Print color (BandChange label (dbfs libm_log10 (np_rms block)))
              :: Call_get_random_wallpaper folder :: mid ++ sleep_of r)
      with ([Print color (BandChange label (dbfs libm_log10 (np_rms block)));
             Call_get_random_wallpaper folder] ++ mid ++ sleep_of r).
    rewrite !selection_attempts_app, (selection_attempts_inner mid Hmid).
    destruct r; reflexivity.
Qed.

(** C6. On a folder that does not exist, or that holds no entry ending in
    an image suffix, the selector reports it and returns [None], raising
    nothing; and when a band transition of the loop leads to such a folder,
    the iteration is the report of the band, the call of the selector, its
    warning and the sleep (no call of the applier), after which the loop goes
    on with the next block. *)
Theorem unavailable_folder_is_skipped (w : world) (folder : string) (st : state)
    (block : list float) (rest : list queue_item) :
  unavailable w folder ->
  get_random_wallpaper w folder st
  = (logged st [Call_get_random_wallpaper folder;
                Print RED (selector_warning w folder)],
     Return None) /\
  (selector_warning w folder = FolderNotFound folder \/
   selector_warning w folder = NoImagesFound folder) /\
  (forall db label color,
     rms_to_dbfs libm_log10 (np_rms block) 1 st = (st, Return db) ->
     classify_db db = (label, color) ->
     current_label st <> Some label ->
     CATEGORIES !! label = Some folder ->
     main_loop libm_log10 np_rms (Block w block :: rest) st
     = main_loop libm_log10 np_rms rest
         (mkState (Some label)
            (trace st ++ [Print color (BandChange label db);
                          Call_get_random_wallpaper folder;
                          Print RED (selector_warning w folder);
                          Sleep]))).
Proof.
  intros Hu. split; [now apply get_random_wallpaper_unavailable|]. split.
  { unfold selector_warning. destruct (fs w !! folder); tauto. }
  intros db label color Hdb Hc Hl Hf. cbn [main_loop].
  rewrite LevelEstimator.rms_to_dbfs_total in Hdb. injection Hdb as <-.
  rewrite loop_body_on_db_value.
  destruct (on_db_value_changed w _ st label color Hc Hl) as (folder' & Hf' & ->).
  assert (folder' = folder) as -> by congruence.
  rewrite (get_random_wallpaper_unavailable w folder _ Hu).
  cbn [after_selection]. norm_logged. unfold logged. cbn [current_label trace].
  rewrite <- app_assoc. reflexivity.
Qed.

End WithNumerics.

Lemma unavailable_folder_is_skipped_witness :
  get_random_wallpaper (w_empty "Linux") "wallpapers/quiet" (mkState None [])
  = (logged (mkState None [])
       [Call_get_random_wallpaper "wallpapers/quiet";
        Print RED (selector_warning (w_empty "Linux") "wallpapers/quiet")],
     Return None) /\
  (selector_warning (w_empty "Linux") "wallpapers/quiet"
   = FolderNotFound "wallpapers/quiet" \/
   selector_warning (w_empty "Linux") "wallpapers/quiet"
   = NoImagesFound "wallpapers/quiet") /\
  (forall db label color,
     rms_to_dbfs (fun _ => (-3)%float) 0.5%float 1 (mkState None [])
     = (mkState None [], Return db) ->
     classify_db db = (label, color) ->
     current_label (mkState None []) <> Some label ->
     CATEGORIES !! label = Some "wallpapers/quiet" ->
     main_loop (fun _ => (-3)%float) (fun _ => 0.5%float)
       [Block (w_empty "Linux") []; CtrlC] (mkState None [])
     = main_loop (fun _ => (-3)%float) (fun _ => 0.5%float) [CtrlC]
         (mkState (Some label)
            (trace (mkState None [])
             ++ [Print color (BandChange label db);
                 Call_get_random_wallpaper "wallpapers/quiet";
                 Print RED (selector_warning (w_empty "Linux") "wallpapers/quiet");
                 Sleep]))).
Proof.
  apply (unavailable_folder_is_skipped (fun _ => (-3)%float) (fun _ => 0.5%float)
           (w_empty "Linux") "wallpapers/quiet" (mkState None []) [] [CtrlC]).
  left. reflexivity.
Defined.

(** A path that names a file is another matter: [os.listdir] raises, the
    handler of [main] reports it and the loop ends. *)
Lemma get_random_wallpaper_on_file (w : world) (folder : string) (st : state) :
  fs w !! folder = Some File ->
  get_random_wallpaper w folder st
  = (logged st [Call_get_random_wallpaper folder], Raise (OSError "NotADirectoryError")).
Proof.
  intros Hf. pose proof (get_random_wallpaper_cases w folder st) as Hc.
  now rewrite Hf in Hc.
Qed.

(** *** The scenario of the decibel stream *)

(** C5 as stated fails. From the start of [main] (no current band) the
    stream reports three band changes, and the third sample is Loud, not
    Moderate: -15 lies above -20. Starting with Quiet as the current band
    gives two changes, the first of them Loud again. *)
Lemma stream_changes_from_start :
  band_changes 1 (trace (run_db (feed (w_empty "Linux") db_stream) initial_state).1)
  = [(1%nat, "Quiet"); (3%nat, "Loud"); (5%nat, "Very Loud")] /\
  band_changes 1 (trace (run_db (feed (w_empty "Linux") db_stream) initial_state).1)
  <> [(3%nat, "Moderate"); (5%nat, "Very Loud")] /\
  band_changes 1 (trace (run_db (feed (w_empty "Linux") db_stream)
                           (mkState (Some "Quiet") (trace initial_state))).1)
  <> [(3%nat, "Moderate"); (5%nat, "Very Loud")].
Proof.
  split; [reflexivity|]. split; discriminate.
Qed.

Lemma run_db_step (w : world) (db : float) (rest : list (world * float))
    (st st' : state) :
  run_db ((w, db) :: rest) st = (st', Running) ->
  exists st1, on_db_value w db st = (st1, Return tt) /\ run_db rest st1 = (st', Running).
Proof.
  cbn [run_db]. destruct (on_db_value w db st) as [st1 [[]|e]]; [eauto|discriminate].
Qed.

(** C5, as the code has it. Fed the stream -50, -50, -15, -15, -5 from the
    start of [main], in any worlds in which the five iterations raise
    nothing, the loop reports exactly three band changes: Quiet at the first
    sample, Loud at the third and Very Loud at the fifth. *)
Theorem stream_band_changes (w1 w2 w3 w4 w5 : world) (st' : state) :
  run_db [(w1, -50); (w2, -50); (w3, -15); (w4, -15); (w5, -5)]%float
         initial_state = (st', Running) ->
  band_changes 1 (trace st')
  = [(1%nat, "Quiet"); (3%nat, "Loud"); (5%nat, "Very Loud")].
Proof.
  intros H.
  apply run_db_step in H as (s1 & E1 & H).
  apply run_db_step in H as (s2 & E2 & H).
  apply run_db_step in H as (s3 & E3 & H).
  apply run_db_step in H as (s4 & E4 & H).
  apply run_db_step in H as (s5 & E5 & H).
  cbn [run_db] in H. injection H as <-.
  apply (iteration_changes w1 (-50)%float _ _ "Quiet" GREEN eq_refl) in E1 as (L1 & S1 & C1).
  apply (iteration_changes w2 (-50)%float _ _ "Quiet" GREEN eq_refl) in E2 as (L2 & S2 & C2).
  apply (iteration_changes w3 (-15)%float _ _ "Loud" MAGENTA eq_refl) in E3 as (L3 & S3 & C3).
  apply (iteration_changes w4 (-15)%float _ _ "Loud" MAGENTA eq_refl) in E4 as (L4 & S4 & C4).
  apply (iteration_changes w5 (-5)%float _ _ "Very Loud" RED eq_refl) in E5 as (L5 & S5 & C5).
  rewrite C5, C4, C3, C2, C1, L4, L3, L2, L1, S4, S3, S2, S1. reflexivity.
Qed.

Lemma stream_band_changes_witness :
  band_changes 1 (trace (run_db (feed (w_empty "Linux") db_stream) initial_state).1)
  = [(1%nat, "Quiet"); (3%nat, "Loud"); (5%nat, "Very Loud")].
Proof.
  apply (stream_band_changes (w_empty "Linux") (w_empty "Linux") (w_empty "Linux")
           (w_empty "Linux") (w_empty "Linux")).
  reflexivity.
Defined.


(** *** A system [set_wallpaper] does not know *)





Example unsupported_platform_run :
  on_db_value w_freebsd (-50)%float (mkState None [])
  = (mkState (Some "Quiet")
       [Print GREEN (BandChange "Quiet" (-50)%float);
        Call_get_random_wallpaper "wallpapers/quiet";
        Call_set_wallpaper "wallpapers/quiet/q.jpg";
        Print RED UnsupportedOS;
        Sleep],
     Return tt).
Proof. reflexivity. Qed.

End Monitor.

(** ** From the level to the band *)

Module Pipeline.

Import FloatOrder Monitor.
Local Open Scope string_scope.
Local Open Scope float_scope.

Lemma xle_trans (a b c : xreal) : xle a b -> xle b c -> xle a c.
Proof.
  unfold xle. destruct a as [|p|], b as [|q|], c as [|r|]; simpl; try congruence.
  rewrite <- !Qle_alt. apply Qle_trans.
Qed.

(** A comparison that holds is a comparison of two numbers. *)
Lemma leb_true_values (d1 d2 : float) :
  (d1 <=? d2) = true ->
  exists v1 v2, float_value d1 = Some v1 /\ float_value d2 = Some v2 /\ xle v1 v2.
Proof.
  intros H.
  assert (H1 : is_nan d1 = false).
  { destruct (is_nan d1) eqn:E; [|reflexivity]. now rewrite leb_nan_l in H. }
  assert (H2 : is_nan d2 = false).
  { destruct (is_nan d2) eqn:E; [|reflexivity]. apply is_nan_spec in E.
    rewrite leb_spec in H. unfold SFleb in H. rewrite E in H.
    destruct (Prim2SF d1); discriminate. }
  apply float_value_is_Some in H1 as [v1 Hv1].
  apply float_value_is_Some in H2 as [v2 Hv2].
  exists v1, v2. split; [assumption|]. split; [assumption|].
  now apply (leb_value d1 d2 v1 v2 Hv1 Hv2).
Qed.

(** NaN goes through a product. *)
Lemma mul_nan_r (a x : float) : is_nan x = true -> is_nan (a * x) = true.
Proof.
  rewrite !is_nan_spec, mul_spec. intros ->.
  unfold SF64mul, SFmul. destruct (Prim2SF a); reflexivity.
Qed.

Lemma classify_db_of_nan (d : float) :
  is_nan d = true -> classify_db d = ("Very Loud", RED).
Proof. intros Hd. unfold classify_db. now rewrite !leb_nan_l. Qed.

(** After an iteration the current band is the band of the decibel value,
    whether the iteration returned or raised. *)
Lemma on_db_value_label (w : world) (db : float) (st st' : state) (r : result unit) :
  on_db_value w db st = (st', r) -> current_label st' = Some (classify_db db).1.
Proof.
  destruct (classify_db db) as [label color] eqn:Hc. cbn [fst].
  destruct (decide (current_label st = Some label)) as [Hl|Hl].
  - rewrite (on_db_value_unchanged w db st label color Hc Hl).
    intros H. injection H as <- _. exact Hl.
  - destruct (iteration_shape w db st label color Hc Hl) as (folder & mid & r' & _ & -> & _).
    intros H. injection H as <- _. reflexivity.
Qed.

(** X4. The classifier is monotone: a decibel value that is not below
    another gets a band that is not below the other's. *)
Theorem classify_db_monotone (d1 d2 : float) :
  (d1 <=? d2) = true ->
  (band_rank (classify_db d1).1 <= band_rank (classify_db d2).1)%nat.
Proof.
  intros (v1 & v2 & Hv1 & Hv2 & Hle)%leb_true_values.
  assert (T : forall q, xle v2 (Fin q) -> xle v1 (Fin q))
    by (intros q; apply xle_trans; exact Hle).
  assert (M12 : xle v2 (Fin (-40)) -> xle v2 (Fin (-20)))
    by (intros H; apply (Classifier.xle_trans_Fin v2 _ _ H); discriminate).
  assert (M23 : xle v2 (Fin (-20)) -> xle v2 (Fin (-8)))
    by (intros H; apply (Classifier.xle_trans_Fin v2 _ _ H); discriminate).
  pose proof (T (-40)%Q) as T1. pose proof (T (-20)%Q) as T2. pose proof (T (-8)%Q) as T3.
  destruct (Classifier.classify_db_cases d1 v1 Hv1)
    as [(P1 & ->)|[(N1 & P2 & ->)|[(N2 & P3 & ->)|(N3 & ->)]]];
  destruct (Classifier.classify_db_cases d2 v2 Hv2)
    as [(Q1 & ->)|[(K1 & Q2 & ->)|[(K2 & Q3 & ->)|(K3 & ->)]]];
  cbn; try lia; exfalso; tauto.
Qed.

Lemma classify_db_monotone_witness :
  (band_rank (classify_db (-30)).1 <= band_rank (classify_db (-10)).1)%nat.
Proof. apply (classify_db_monotone (-30) (-10)). reflexivity. Defined.

Section WithNumerics.

Variable libm_log10 : float -> float.
Variable np_rms : list float -> float.

(** X1. With the default reference [rms_to_dbfs] raises on no level at
    all, NaN included, and touches neither the trace nor the current band:
    it returns negative infinity when [rms <= 0] holds and [20 * log10 rms]
    when it does not. *)
Theorem rms_to_dbfs_default_returns (r : float) (st : state) :
  exists db,
    rms_to_dbfs libm_log10 r 1 st = (st, Return db) /\
    ((r <=? 0) = true /\ db = neg_infinity \/
     (r <=? 0) = false /\ db = 20 * libm_log10 r).
Proof.
  exists (dbfs libm_log10 r). split; [apply LevelEstimator.rms_to_dbfs_total|].
  unfold dbfs. destruct (r <=? 0); [left|right]; split; reflexivity.
Qed.

(** X2. A block whose level is NaN is classed Very Loud, when [log10]
    gives NaN on NaN: the guard [rms <= 0] fails, the product with 20 is
    NaN, and NaN falls through the thresholds. *)
Theorem nan_block_is_very_loud (w : world) (block : list float) (st : state) :
  is_nan (np_rms block) = true ->
  (forall x, is_nan x = true -> is_nan (libm_log10 x) = true) ->
  exists st' r,
    loop_body libm_log10 np_rms w block st = (st', r) /\
    current_label st' = Some "Very Loud".
Proof.
  intros Hn Hlog. rewrite loop_body_on_db_value.
  destruct (on_db_value w _ st) as [st' r] eqn:E. exists st', r.
  split; [reflexivity|]. rewrite (on_db_value_label _ _ _ _ _ E).
  unfold dbfs. rewrite (leb_nan_l _ _ Hn).
  now rewrite (classify_db_of_nan _ (mul_nan_r 20 _ (Hlog _ Hn))).
Qed.

(** X3. A block whose level stands for zero or less (silence) is classed
    Quiet: the level becomes negative infinity, which is below every
    threshold. *)
Theorem silent_block_is_quiet (w : world) (block : list float) (st : state)
    (v : xreal) :
  float_value (np_rms block) = Some v -> xle v (Fin 0) ->
  exists st' r,
    loop_body libm_log10 np_rms w block st = (st', r) /\
    current_label st' = Some "Quiet".
Proof.
  intros Hv Hle. rewrite loop_body_on_db_value.
  destruct (on_db_value w _ st) as [st' r] eqn:E. exists st', r.
  split; [reflexivity|]. rewrite (on_db_value_label _ _ _ _ _ E).
  unfold dbfs.
  now rewrite (proj2 (leb_value (np_rms block) 0 v (Fin 0) Hv eq_refl) Hle).
Qed.

End WithNumerics.

Lemma nan_block_is_very_loud_witness :
  exists st' r,
    loop_body (fun x => x) (fun _ => nan) (w_empty "Linux") [] initial_state = (st', r) /\
    current_label st' = Some "Very Loud".
Proof.
  apply (nan_block_is_very_loud (fun x => x) (fun _ => nan)).
  - reflexivity.
  - intros x Hx. exact Hx.
Defined.

Lemma silent_block_is_quiet_witness :
  exists st' r,
    loop_body (fun x => x) (fun _ => 0) (w_empty "Linux") [] initial_state = (st', r) /\
    current_label st' = Some "Quiet".
Proof.
  apply (silent_block_is_quiet (fun x => x) (fun _ => 0) (w_empty "Linux") []
           initial_state (Fin 0)).
  - reflexivity.
  - discriminate.
Defined.

End Pipeline.

(** ** More on the selector *)

Module SelectorFacts.

Import Selector.
Local Open Scope string_scope.

(** *** Strings *)

Lemma append_cons (x : ascii) (a b : string) : String x a ++ b = String x (a ++ b).
Proof. reflexivity. Qed.

Lemma length_append (a b : string) :
  String.length (a ++ b) = (String.length a + String.length b)%nat.
Proof.
  induction a as [|c a IH]; [reflexivity|].
  rewrite append_cons. simpl. now rewrite IH.
Qed.

Lemma append_assoc (a b c : string) : (a ++ b) ++ c = a ++ (b ++ c).
Proof.
  induction a as [|x a IH]; [reflexivity|].
  rewrite !append_cons. now rewrite IH.
Qed.

Lemma substring_all (b : string) : substring 0 (String.length b) b = b.
Proof. induction b as [|c b IH]; simpl; [reflexivity|now rewrite IH]. Qed.

Lemma substring_append (a b : string) (m : nat) :
  substring (String.length a) m (a ++ b) = substring 0 m b.
Proof.
  induction a as [|c a IH]; [reflexivity|].
  rewrite append_cons. simpl. exact IH.
Qed.

Lemma endswith_append (a b : string) : endswith (a ++ b) b = true.
Proof.
  unfold endswith. rewrite length_append.
  replace (String.length b <=? String.length a + String.length b)%nat with true
    by (symmetry; apply Nat.leb_le; lia).
  replace (String.length a + String.length b - String.length b)%nat
    with (String.length a) by lia.
  rewrite substring_append, substring_all. apply String.eqb_refl.
Qed.

Lemma endswith_refl (b : string) : endswith b b = true.
Proof. exact (endswith_append "" b). Qed.

Lemma prefix_append (a b : string) : String.prefix a (a ++ b) = true.
Proof.
  induction a as [|c a IH]; [destruct b; reflexivity|].
  rewrite append_cons. simpl. destruct (ascii_dec c c); [exact IH|congruence].
Qed.

(** What [os.path.join] keeps of its arguments: the second one is always
    the end of the result, and the first one its beginning unless the second
    is absolute. *)
Lemma os_path_join_ends (a b : string) : endswith (os_path_join a b) b = true.
Proof.
  unfold os_path_join. destruct (startswith b "/"); [apply endswith_refl|].
  destruct (String.eqb a "" || endswith a "/")%bool; [apply endswith_append|].
  rewrite <- append_assoc. apply endswith_append.
Qed.

Lemma os_path_join_starts (a b : string) :
  startswith b "/" = false -> startswith (os_path_join a b) a = true.
Proof.
  intros Hb. unfold os_path_join. rewrite Hb. unfold startswith.
  destruct (String.eqb a "" || endswith a "/")%bool; apply prefix_append.
Qed.

(** *** What is returned *)

(** X5. A path returned by [get_random_wallpaper] ends with the name of
    an entry of the folder that passed the suffix test, and begins with the
    folder whenever that name does not begin with a slash (no name of a
    directory entry does). *)
Theorem returned_path_shape (w : world) (folder : string) (st st' : state)
    (path : string) :
  get_random_wallpaper w folder st = (st', Return (Some path)) ->
  exists entries name,
    fs w !! folder = Some (Dir entries) /\ name ∈ entries /\
    endswith_any (lower name) IMAGE_SUFFIXES = true /\
    endswith path name = true /\
    (startswith name "/" = false -> startswith path folder = true).
Proof.
  intros H.
  destruct (get_random_wallpaper_path_inv w folder st st' path H)
    as (entries & name & Hf & Hn & -> & _).
  apply image_entries_spec in Hn as [Hs Hin].
  exists entries, name. repeat split; try assumption.
  - apply os_path_join_ends.
  - apply os_path_join_starts.
Qed.

Lemma returned_path_shape_witness :
  exists entries name,
    fs w_loud !! "wallpapers/loud" = Some (Dir entries) /\ name ∈ entries /\
    endswith_any (lower name) IMAGE_SUFFIXES = true /\
    endswith "wallpapers/loud/a.png" name = true /\
    (startswith name "/" = false ->
     startswith "wallpapers/loud/a.png" "wallpapers/loud" = true).
Proof.
  apply (returned_path_shape w_loud "wallpapers/loud" (mkState None [])
           (mkState None [Call_get_random_wallpaper "wallpapers/loud"])).
  reflexivity.
Defined.

(** X6. Every entry that passes the suffix test can be the one chosen:
    for each of them some outcome of the random generator makes
    [get_random_wallpaper] return its path. *)
Theorem every_image_can_be_chosen (w : world) (folder : string)
    (entries : list string) (name : string) (st : state) :
  fs w !! folder = Some (Dir entries) ->
  name ∈ entries ->
  endswith_any (lower name) IMAGE_SUFFIXES = true ->
  exists bits,
    get_random_wallpaper (with_random_bits w bits) folder st
    = (logged st [Call_get_random_wallpaper folder],
       Return (Some (os_path_join folder name))).
Proof.
  intros Hf Hin Hs.
  assert (Hn : name ∈ image_entries entries) by (apply image_entries_spec; auto).
  apply list_elem_of_lookup_1 in Hn as [i Hi].
  pose proof (lookup_lt_Some _ _ _ Hi) as Hlt.
  exists i.
  pose proof (get_random_wallpaper_cases (with_random_bits w i) folder st) as Hc.
  cbn [with_random_bits fs random_bits] in Hc. rewrite Hf in Hc.
  destruct (image_entries entries) as [|f files] eqn:F; [discriminate Hi|].
  destruct Hc as (choice & Hl & Hr).
  rewrite Nat.mod_small in Hl by exact Hlt.
  rewrite Hr. congruence.
Qed.

Lemma every_image_can_be_chosen_witness :
  exists bits,
    get_random_wallpaper (with_random_bits w_loud bits) "wallpapers/loud" (mkState None [])
    = (logged (mkState None []) [Call_get_random_wallpaper "wallpapers/loud"],
       Return (Some (os_path_join "wallpapers/loud" "a.png"))).
Proof.
  apply (every_image_can_be_chosen w_loud "wallpapers/loud" ["a.png"; "b.txt"]).
  - reflexivity.
  - apply list_elem_of_here.
  - reflexivity.
Defined.

(** The three results of the selector and what is printed with each. *)
Lemma selector_outcomes (w : world) (folder : string) (st : state) :
  (unavailable w folder /\
   get_random_wallpaper w folder st
   = (logged st [Call_get_random_wallpaper folder;
                 Print RED (selector_warning w folder)], Return None)) \/
  (exists path,
     get_random_wallpaper w folder st
     = (logged st [Call_get_random_wallpaper folder], Return (Some path))) \/
  (exists e,
     get_random_wallpaper w folder st
     = (logged st [Call_get_random_wallpaper folder], Raise e)).
Proof.
  pose proof (get_random_wallpaper_cases w folder st) as Hc.
  unfold selector_warning, unavailable.
  destruct (fs w !! folder) as [[|entries]|] eqn:Hf.
  - right. right. eauto.
  - destruct (image_entries entries) as [|f files] eqn:F.
    + left. split; [|exact Hc]. right. exists entries. split; [reflexivity|].
      apply Forall_forall. intros x Hx.
      destruct (endswith_any (lower x) IMAGE_SUFFIXES) eqn:E; [|reflexivity].
      assert (Hin : x ∈ image_entries entries) by (apply image_entries_spec; auto).
      rewrite F in Hin. now apply elem_of_nil in Hin.
    + right. left. destruct Hc as (choice & _ & Hr). eauto.
  - left. split; [now left|exact Hc].
Qed.

(** X7. [get_random_wallpaper] prints exactly when it returns [None]: one
    red warning then, and nothing when it returns a path or raises. It never
    touches the current band. *)
Theorem selector_warns_iff_none (w : world) (folder : string) (st : state) :
  exists evs r,
    get_random_wallpaper w folder st
    = (logged st (Call_get_random_wallpaper folder :: evs), r) /\
    (r = Return None ->
     exists m, evs = [Print RED m] /\
               (m = FolderNotFound folder \/ m = NoImagesFound folder)) /\
    (r <> Return None -> evs = []).
Proof.
  destruct (selector_outcomes w folder st) as [(Hu & ->)|[(path & ->)|(e & ->)]].
  - eexists _, _. split; [reflexivity|]. split; [|congruence].
    intros _. eexists. split; [reflexivity|].
    unfold selector_warning. destruct (fs w !! folder); tauto.
  - eexists _, _. split; [reflexivity|]. split; [discriminate|reflexivity].
  - eexists _, _. split; [reflexivity|]. split; [discriminate|reflexivity].
Qed.

(** X8. [None] means that there is nothing to choose from, and only that:
    [get_random_wallpaper] returns [None] exactly when the folder does not
    exist or lists no entry that passes the suffix test. *)
Theorem selector_none_iff_unavailable (w : world) (folder : string) (st : state) :
  (exists st', get_random_wallpaper w folder st = (st', Return None))
  <-> unavailable w folder.
Proof.
  split.
  - intros (st' & H).
    destruct (selector_outcomes w folder st) as [(Hu & _)|[(path & Hp)|(e & He)]];
      [assumption|congruence|congruence].
  - intros Hu. eexists. now apply get_random_wallpaper_unavailable.
Qed.

End SelectorFacts.

(** ** More on the applier *)

Module ApplierFacts.

Import Applier.
Local Open Scope string_scope.

Lemma platform_mechanism_Some (system abs_path : string) (c : platform_call) :
  platform_mechanism system abs_path = Some c ->
  (system = "Windows" /\ c = SystemParametersInfoW abs_path) \/
  (system = "Darwin" /\ c = osascript abs_path) \/
  (system = "Linux" /\ c = gsettings abs_path).
Proof.
  unfold platform_mechanism.
  destruct (String.eqb_spec system "Windows") as [->|_];
    [intros H; injection H as <-; tauto|].
  destruct (String.eqb_spec system "Darwin") as [->|_];
    [intros H; injection H as <-; tauto|].
  destruct (String.eqb_spec system "Linux") as [->|_];
    [intros H; injection H as <-; tauto|discriminate].
Qed.

Lemma platform_mechanism_None (system abs_path : string) :
  platform_mechanism system abs_path = None -> unrecognized system.
Proof.
  unfold platform_mechanism, unrecognized.
  destruct (String.eqb_spec system "Windows"); [discriminate|].
  destruct (String.eqb_spec system "Darwin"); [discriminate|].
  destruct (String.eqb_spec system "Linux"); [discriminate|tauto].
Qed.

(** X9. [set_wallpaper] runs a platform mechanism at most once, and never
    again after a failure: exactly once when the absolute path exists and
    the system is Windows, Darwin or Linux, not at all otherwise; and the
    mechanism is the one of the system, given the absolute path. *)
Theorem set_wallpaper_applies_once (w : world) (image_path : string) (st : state) :
  exists evs r,
    set_wallpaper w image_path st = (logged st evs, r) /\
    (platform_calls evs <= 1)%nat /\
    (platform_calls evs = 1%nat
     <-> os_path_exists w (os_path_abspath w image_path) = true /\
         ~ unrecognized (platform_system w)) /\
    (forall c, Platform c ∈ evs ->
       (platform_system w = "Windows" /\
        c = SystemParametersInfoW (os_path_abspath w image_path)) \/
       (platform_system w = "Darwin" /\ c = osascript (os_path_abspath w image_path)) \/
       (platform_system w = "Linux" /\ c = gsettings (os_path_abspath w image_path))).
Proof.
  rewrite set_wallpaper_cases.
  destruct (os_path_exists w (os_path_abspath w image_path)) eqn:Hex.
  - destruct (platform_mechanism _ _) as [c|] eqn:Hm.
    + pose proof (platform_mechanism_Some _ _ _ Hm) as Hc.
      assert (Hrec : ~ unrecognized (platform_system w)).
      { intros (H1 & H2 & H3). destruct Hc as [[H _]|[[H _]|[H _]]]; congruence. }
      assert (Hin : forall (tl : list event) c',
                Platform c' ∈ Call_set_wallpaper image_path :: Platform c :: tl ->
                Forall (fun e => is_platform e = false) tl -> c' = c).
      { intros tl c' H Htl. rewrite !elem_of_cons in H.
        destruct H as [H|[H|H]]; [discriminate|congruence|].
        rewrite Forall_forall in Htl. apply Htl in H. discriminate. }
      destruct (platform_outcome w c) as [e|]; [destruct (is_Exception e)|];
        eexists _, _; (split; [reflexivity|]);
        (split; [change (1 <= 1)%nat; lia|]);
        (split; [split; [tauto|reflexivity]|]);
        intros c' Hc'; apply Hin in Hc'; [subst c'; exact Hc|repeat constructor
                                          |subst c'; exact Hc|repeat constructor
                                          |subst c'; exact Hc|repeat constructor].
    + pose proof (platform_mechanism_None _ _ Hm) as Hun.
      eexists _, _. split; [reflexivity|]. split; [change (0 <= 1)%nat; lia|].
      split; [split; [discriminate|tauto]|].
      intros c Hc. rewrite !elem_of_cons, elem_of_nil in Hc.
      destruct Hc as [H|[H|[]]]; discriminate.
  - eexists _, _. split; [reflexivity|]. split; [change (0 <= 1)%nat; lia|].
    split; [split; [discriminate|intros [H _]; discriminate]|].
    intros c Hc. rewrite !elem_of_cons, elem_of_nil in Hc.
    destruct Hc as [H|[H|[]]]; discriminate.
Qed.

(** X10. What [except Exception] lets through: [set_wallpaper] raises
    exactly when the mechanism it ran raised an exception that does not
    derive from [Exception] (the interrupt of the user); it raises that
    exception, after the attempt and without an error line. *)
Theorem set_wallpaper_raises_iff (w : world) (image_path : string) (st : state)
    (e : exn) :
  (exists st', set_wallpaper w image_path st = (st', Raise e))
  <-> (os_path_exists w (os_path_abspath w image_path) = true /\
       is_Exception e = false /\
       exists c,
         platform_mechanism (platform_system w) (os_path_abspath w image_path) = Some c /\
         platform_outcome w c = Some e /\
         set_wallpaper w image_path st
         = (logged st [Call_set_wallpaper image_path; Platform c], Raise e)).
Proof.
  rewrite set_wallpaper_cases.
  destruct (os_path_exists w (os_path_abspath w image_path)).
  - destruct (platform_mechanism _ _) as [c|].
    + destruct (platform_outcome w c) as [e'|] eqn:Ho.
      * destruct (is_Exception e') eqn:He.
        -- split; [intros (st' & H); discriminate|].
           intros (_ & He' & c' & Hc & Ho' & _). congruence.
        -- split.
           ++ intros (st' & H). injection H as _ <-. eauto 10.
           ++ intros (_ & _ & c' & Hc & Ho' & _).
              assert (c' = c) as -> by congruence.
              assert (e = e') as -> by congruence. eauto.
      * split; [intros (st' & H); discriminate|].
        intros (_ & _ & c' & Hc & Ho' & _). congruence.
    + split; [intros (st' & H); discriminate|].
      intros (_ & _ & c' & Hc & _). discriminate.
  - split; [intros (st' & H); discriminate|]. intros (H & _). discriminate.
Qed.

Example interrupted_wallpaper_call :
  main (fun _ => (-0.5)%float) (fun _ => 0.5%float) [Block w_interrupted []; Block w_loud []]
  = (mkState (Some "Loud")
       [Print_plain Starting; Print_plain PressCtrlC;
        Print MAGENTA (BandChange "Loud" (-10)%float);
        Call_get_random_wallpaper "wallpapers/loud";
        Call_set_wallpaper "wallpapers/loud/a.png";
        Platform (gsettings "wallpapers/loud/a.png");
        Print CYAN StoppedByUser],
     Exited).
Proof. reflexivity. Qed.

End ApplierFacts.

(** ** More on the loop *)

Module LoopFacts.

Import Selector Applier Monitor SelectorFacts.
Local Open Scope string_scope.
Local Open Scope list_scope.

(** *** Readings of a trace are additive *)

Lemma reported_bands_app (a b : list event) :
  reported_bands (a ++ b) = reported_bands a ++ reported_bands b.
Proof.
  induction a as [|e a IH]; [reflexivity|].
  destruct e as [c m|m| | | |]; cbn [app reported_bands]; try exact IH.
  destruct m; cbn [app]; rewrite ?IH; reflexivity.
Qed.

Lemma applied_paths_app (a b : list event) :
  applied_paths (a ++ b) = applied_paths a ++ applied_paths b.
Proof.
  induction a as [|e a IH]; [reflexivity|].
  destruct e; cbn [app applied_paths]; rewrite ?IH; reflexivity.
Qed.

Lemma platform_calls_app (a b : list event) :
  platform_calls (a ++ b) = (platform_calls a + platform_calls b)%nat.
Proof. unfold platform_calls. now rewrite filter_app, length_app. Qed.

(** *** The selector raises only where [os.listdir] does *)

Lemma selector_raises (w : world) (folder : string) (st st' : state) (e : exn) :
  get_random_wallpaper w folder st = (st', Raise e) ->
  e = OSError "NotADirectoryError" /\ fs w !! folder = Some File.
Proof.
  intros H. pose proof (get_random_wallpaper_cases w folder st) as Hc.
  destruct (fs w !! folder) as [[|entries]|]; [|destruct (image_entries entries)|];
    try destruct Hc as (choice & _ & Hc); rewrite Hc in H; try discriminate.
  injection H as _ <-. auto.
Qed.

(** *** Everything about one iteration *)

Ltac le_compute := apply Nat.leb_le; reflexivity.

Lemma iteration_events (w : world) (db : float) (st : state)
    (label : string) (color : Fore) :
  classify_db db = (label, color) ->
  exists evs r,
    on_db_value w db st = (mkState (Some label) (trace st ++ evs), r) /\
    sleeps evs = length (sleep_of r) /\
    reported_bands evs
    = (if decide (current_label st = Some label) then [] else [label]) /\
    selection_attempts evs = length (reported_bands evs) /\
    (length (applied_paths evs) <= selection_attempts evs)%nat /\
    (platform_calls evs <= length (applied_paths evs))%nat /\
    (forall p, p ∈ applied_paths evs -> from_band_folder w label p) /\
    (forall e, r = Raise e -> iteration_error w label e).
Proof.
  intros Hc. destruct (decide (current_label st = Some label)) as [Hl|Hl].
  { rewrite (on_db_value_unchanged w db st label color Hc Hl).
    unfold logged. rewrite Hl. exists [Sleep], (Return tt).
    split; [reflexivity|]. repeat split; try reflexivity; try le_compute.
    - intros p Hp. now apply elem_of_nil in Hp.
    - discriminate. }
  destruct (on_db_value_changed w db st label color Hc Hl) as (folder & Hf & ->).
  set (st1 := mkState (Some label) (trace st ++ [Print color (BandChange label db)])).
  assert (Hnone : forall m,
            m = FolderNotFound folder \/ m = NoImagesFound folder ->
            exists evs r,
              (logged (logged st1 [Call_get_random_wallpaper folder; Print RED m]) [Sleep],
               Return tt)
              = (mkState (Some label) (trace st ++ evs), r) /\
              sleeps evs = length (sleep_of r) /\
              reported_bands evs = [label] /\
              selection_attempts evs = length (reported_bands evs) /\
              (length (applied_paths evs) <= selection_attempts evs)%nat /\
              (platform_calls evs <= length (applied_paths evs))%nat /\
              (forall p, p ∈ applied_paths evs -> from_band_folder w label p) /\
              (forall e, r = Raise e -> iteration_error w label e)).
  { intros m Hm. unfold logged, st1. cbn [current_label trace]. rewrite <- !app_assoc.
    cbn [app]. eexists _, _. split; [reflexivity|].
    destruct Hm as [-> | ->]; repeat split; try reflexivity; try le_compute;
      try discriminate; intros p Hp; now apply elem_of_nil in Hp. }
  destruct (selector_outcomes w folder st1) as [(Hu & ->)|[(path & Hp)|(e & He)]].
  - cbn [after_selection]. apply Hnone.
    unfold selector_warning. destruct (fs w !! folder); tauto.
  - pose proof (get_random_wallpaper_path_inv w folder st1 _ path Hp)
      as (entries & name & Hd & Hn & Hpath & _).
    apply image_entries_spec in Hn as [Hs Hin].
    assert (Hfrom : from_band_folder w label path)
      by (exists folder, entries, name; auto).
    rewrite Hp. cbn [after_selection]. destruct (truthy (Some path)).
    + rewrite set_wallpaper_cases.
      destruct (os_path_exists w (os_path_abspath w path));
        [destruct (platform_mechanism _ _) as [c|];
         [destruct (platform_outcome w c) as [e|] eqn:Ho;
          [destruct (is_Exception e) eqn:He|]|]|];
        unfold logged, st1; cbn [current_label trace]; rewrite <- !app_assoc;
        cbn [app]; eexists _, _; (split; [reflexivity|]);
        repeat split; try reflexivity; try le_compute;
        try (intros p Hin'; cbn in Hin'; apply list_elem_of_singleton in Hin';
             subst p; exact Hfrom);
        try discriminate.
      intros e' He'. injection He' as <-. right. eauto.
    + unfold logged, st1. cbn [current_label trace]. rewrite <- !app_assoc.
      cbn [app]. eexists _, _. split; [reflexivity|]. repeat split; try reflexivity; try le_compute.
      * intros p Hp'. now apply elem_of_nil in Hp'.
      * discriminate.
  - rewrite He. cbn [after_selection].
    apply selector_raises in He as [-> Hfile].
    unfold logged, st1. cbn [current_label trace]. rewrite <- !app_assoc.
    cbn [app]. eexists _, _. split; [reflexivity|]. repeat split; try reflexivity; try le_compute.
    + intros p Hp'. now apply elem_of_nil in Hp'.
    + intros e' He'. injection He' as <-. left. eauto.
Qed.


(** *** Bands that do not repeat *)

Lemma no_repeat_join (L R : list string) :
  no_repeat L -> no_repeat (option_list (last L) ++ R) -> no_repeat (L ++ R).
Proof.
  induction L as [|a [|b t] IH]; intros HL HR.
  - exact HR.
  - exact HR.
  - destruct HL as [Hab HL]. rewrite last_cons_cons in HR.
    change ((a :: b :: t) ++ R) with (a :: ((b :: t) ++ R)).
    change ((b :: t) ++ R) with (b :: (t ++ R)) at 1.
    split; [exact Hab|]. exact (IH HL HR).
Qed.

Lemma last_join (L R : list string) :
  last (L ++ R) = last (option_list (last L) ++ R).
Proof.
  rewrite !last_app. destruct (last R); [reflexivity|].
  destruct (last L); reflexivity.
Qed.

(** *** Facts of runs *)

Lemma run_facts_nil (cur : option string) : run_facts cur 0 [] cur.
Proof.
  unfold run_facts. cbn [reported_bands applied_paths length].
  rewrite app_nil_r.
  repeat split; try reflexivity; try constructor; destruct cur; reflexivity || exact I.
Qed.

Lemma run_facts_handler (cur : option string) (e : exn) :
  run_facts cur 0 [handler_event e] cur.
Proof.
  destruct (run_facts_nil cur) as (F1 & F2 & F3 & F4 & F5 & F6 & F7 & F8).
  unfold run_facts. destruct e; exact (conj F1 (conj F2 (conj F3 (conj F4 (conj F5 (conj F6 (conj F7 F8))))))).
Qed.

Lemma run_facts_le (cur cur' : option string) (n m : nat) (evs : list event) :
  run_facts cur n evs cur' -> (n <= m)%nat -> run_facts cur m evs cur'.
Proof.
  intros (F1 & F2 & F3 & F4 & F5 & F6 & F7 & F8) Hle.
  unfold run_facts. repeat split; try assumption; lia.
Qed.

Lemma run_facts_app (c c1 c2 : option string) (n1 n2 : nat) (e1 e2 : list event) :
  run_facts c n1 e1 c1 -> run_facts c1 n2 e2 c2 ->
  run_facts c (n1 + n2) (e1 ++ e2) c2.
Proof.
  intros (A1 & A2 & A3 & A4 & A5 & A6 & A7 & A8) (B1 & B2 & B3 & B4 & B5 & B6 & B7 & B8).
  unfold run_facts.
  rewrite selection_attempts_app, reported_bands_app, sleeps_app, applied_paths_app,
    platform_calls_app, !length_app.
  repeat split; try lia.
  - apply Forall_app. auto.
  - rewrite app_assoc. apply no_repeat_join; [exact A7|]. now rewrite A8.
  - rewrite app_assoc, last_join, A8. exact B8.
Qed.

(** One iteration. *)
Lemma iteration_run_facts (w : world) (db : float) (st st' : state) (r : result unit) :
  on_db_value w db st = (st', r) ->
  exists evs,
    trace st' = trace st ++ evs /\
    run_facts (current_label st) 1 evs (current_label st') /\
    sleeps evs = length (sleep_of r) /\
    (forall p, p ∈ applied_paths evs ->
       exists label, current_label st' = Some label /\ from_band_folder w label p) /\
    (forall e, r = Raise e ->
       exists label, current_label st' = Some label /\ iteration_error w label e).
Proof.
  intros H. destruct (classify_db db) as [label color] eqn:Hc.
  assert (Hlab : label ∈ LABELS).
  { destruct (Classifier.classify_db_label db) as [E|[E|[E|E]]];
      rewrite Hc in E; injection E as -> _; unfold LABELS; set_solver. }
  destruct (iteration_events w db st label color Hc)
    as (evs & r' & Heq & Hs & Hb & Hsel & Happ & Hplat & Hfrom & Herr).
  rewrite Heq in H. injection H as <- <-. cbn [current_label trace].
  exists evs. split; [reflexivity|]. split; [|split; [exact Hs|split; eauto]].
  unfold run_facts. rewrite Hb in *.
  assert (Hsl : (sleeps evs <= 1)%nat) by (rewrite Hs; destruct r'; cbn; lia).
  destruct (decide (current_label st = Some label)) as [Hl|Hl].
  - rewrite Hl. cbn. repeat split; try assumption; try lia; constructor.
  - repeat split; try assumption; try (cbn; lia).
    + apply Forall_cons. split; [exact Hlab|constructor].
    + destruct (current_label st) as [c|]; cbn; [|exact I].
      split; [congruence|exact I].
    + destruct (current_label st); reflexivity.
Qed.

Lemma main_handlers_logged (e : exn) (st : state) :
  (main_handlers e st).1 = logged st [handler_event e].
Proof. destruct e; reflexivity. Qed.

Lemma blocks_Block (w : world) (block : list float) (rest : list queue_item) :
  blocks (Block w block :: rest) = S (blocks rest).
Proof. reflexivity. Qed.

Lemma blocks_CtrlC (rest : list queue_item) : blocks (CtrlC :: rest) = blocks rest.
Proof. reflexivity. Qed.

Section WithNumerics.

Variable libm_log10 : float -> float.
Variable np_rms : list float -> float.

(** The whole loop. *)
Lemma main_loop_run_facts (items : list queue_item) (st st' : state) (s : status) :
  main_loop libm_log10 np_rms items st = (st', s) ->
  exists evs,
    trace st' = trace st ++ evs /\
    run_facts (current_label st) (blocks items) evs (current_label st') /\
    (s = Running -> sleeps evs = length items /\ blocks items = length items).
Proof.
  revert st. induction items as [|[w block|] rest IH]; intros st H.
  - cbn in H. injection H as <- <-. exists []. rewrite app_nil_r.
    split; [reflexivity|]. split; [apply run_facts_nil|]. intros _. split; reflexivity.
  - cbn [main_loop] in H. rewrite loop_body_on_db_value in H.
    destruct (on_db_value w _ st) as [st1 r] eqn:E.
    destruct (iteration_run_facts _ _ _ _ _ E) as (e1 & T1 & F1 & S1 & _).
    rewrite blocks_Block. destruct r as [[]|e].
    + destruct (IH st1 H) as (e2 & T2 & F2 & R2).
      exists (e1 ++ e2). split; [rewrite T2, T1; now rewrite app_assoc|].
      split; [exact (run_facts_app _ _ _ 1 _ _ _ F1 F2)|].
      intros Hs. destruct (R2 Hs) as [R2a R2b].
      rewrite sleeps_app, S1, R2a, R2b. cbn. split; reflexivity.
    + injection H as <- <-. rewrite (main_handlers_logged e st1).
      exists (e1 ++ [handler_event e]). cbn [logged current_label trace].
      split; [rewrite T1; now rewrite app_assoc|]. split; [|discriminate].
      apply (run_facts_le _ _ (1 + 0)); [|lia].
      exact (run_facts_app _ _ _ 1 0 _ _ F1 (run_facts_handler _ e)).
  - cbn [main_loop] in H. injection H as <- <-.
    exists [handler_event KeyboardInterrupt]. cbn [current_label trace handler_event].
    split; [reflexivity|]. split; [|discriminate].
    apply (run_facts_le _ _ 0); [exact (run_facts_handler _ KeyboardInterrupt)|lia].
Qed.

(** X11. The loop on a queue in two parts is the loop on the first part
    and then, if it is still running, the loop on the second from the state
    reached; once the loop has ended nothing more is processed. In
    particular the blocks queued behind an interrupt are never looked at. *)
Theorem main_loop_app (a b : list queue_item) (st : state) :
  main_loop libm_log10 np_rms (a ++ b) st
  = (match main_loop libm_log10 np_rms a st with
     | (st', Running) => main_loop libm_log10 np_rms b st'
     | (st', Exited) => (st', Exited)
     end) /\
  main_loop libm_log10 np_rms (a ++ CtrlC :: b) st
  = main_loop libm_log10 np_rms (a ++ [CtrlC]) st.
Proof.
  split.
  - revert st. induction a as [|[w block|] rest IH]; intros st.
    + reflexivity.
    + cbn [app main_loop]. destruct (loop_body _ _ w block st) as [st1 [[]|e]];
        [apply IH|reflexivity].
    + reflexivity.
  - revert st. induction a as [|[w block|] rest IH]; intros st.
    + reflexivity.
    + cbn [app main_loop]. destruct (loop_body _ _ w block st) as [st1 [[]|e]];
        [apply IH|reflexivity].
    + reflexivity.
Qed.


(** X13. A loop that is still running has processed every item, all of
    them blocks, and has slept exactly once for each. *)
Theorem running_loop_sleeps_once_per_block (items : list queue_item) (st st' : state) :
  main_loop libm_log10 np_rms items st = (st', Running) ->
  exists evs,
    trace st' = trace st ++ evs /\
    sleeps evs = length items /\
    blocks items = length items.
Proof.
  intros H. destruct (main_loop_run_facts items st st' Running H) as (evs & T & _ & R).
  exists evs. split; [exact T|]. exact (R eq_refl).
Qed.

(** The run of [main]: the greeting, then events with the facts of runs. *)
Lemma main_run_facts (items : list queue_item) :
  exists evs,
    main_trace libm_log10 np_rms items
    = [Print_plain Starting; Print_plain PressCtrlC] ++ evs /\
    run_facts None (blocks items) evs
      (current_label (main libm_log10 np_rms items).1).
Proof.
  unfold main_trace, main.
  destruct (main_loop libm_log10 np_rms items initial_state) as [st' s] eqn:E.
  destruct (main_loop_run_facts items initial_state st' s E) as (evs & T & F & _).
  exists evs. split; [exact T|exact F].
Qed.

(** X14. The current band is always the last band reported on the
    console, and none before the first report; when set it is one of the
    four labels. *)
Theorem current_band_is_last_report (items : list queue_item) :
  last (reported_bands (main_trace libm_log10 np_rms items))
  = current_label (main libm_log10 np_rms items).1 /\
  (forall l, current_label (main libm_log10 np_rms items).1 = Some l -> l ∈ LABELS).
Proof.
  destruct (main_run_facts items) as (evs & -> & F).
  destruct F as (_ & _ & _ & _ & _ & Hlab & _ & Hlast).
  rewrite reported_bands_app. cbn [reported_bands app]. cbn [option_list app] in Hlast.
  split; [exact Hlast|].
  intros l Hl. rewrite <- Hlast in Hl. apply last_Some_elem_of in Hl.
  rewrite Forall_forall in Hlab. now apply Hlab.
Qed.

(** X15. [main] never reports the same band twice in a row: between two
    reports of a band another band was reported. *)
Theorem main_never_repeats_a_band (items : list queue_item) :
  no_repeat (reported_bands (main_trace libm_log10 np_rms items)).
Proof.
  destruct (main_run_facts items) as (evs & -> & F).
  destruct F as (_ & _ & _ & _ & _ & _ & Hrep & _).
  rewrite reported_bands_app. exact Hrep.
Qed.

(** X16. Counting over a whole run of [main]: the selector is called
    exactly once per reported band, there is at most one report per block,
    the applier is called at most once per call of the selector, and a
    platform mechanism is run at most once per call of the applier. *)
Theorem main_counts (items : list queue_item) :
  selection_attempts (main_trace libm_log10 np_rms items)
  = length (reported_bands (main_trace libm_log10 np_rms items)) /\
  (length (reported_bands (main_trace libm_log10 np_rms items)) <= blocks items)%nat /\
  (length (applied_paths (main_trace libm_log10 np_rms items))
   <= selection_attempts (main_trace libm_log10 np_rms items))%nat /\
  (platform_calls (main_trace libm_log10 np_rms items)
   <= length (applied_paths (main_trace libm_log10 np_rms items)))%nat.
Proof.
  destruct (main_run_facts items) as (evs & -> & F).
  destruct F as (F1 & F2 & _ & F4 & F5 & _).
  rewrite selection_attempts_app, reported_bands_app, applied_paths_app, platform_calls_app.
  change (selection_attempts [Print_plain Starting; Print_plain PressCtrlC]) with 0%nat.
  change (platform_calls [Print_plain Starting; Print_plain PressCtrlC]) with 0%nat.
  cbn [reported_bands applied_paths app]. rewrite !Nat.add_0_l. tauto.
Qed.

(** X17. The applier is only ever called on a wallpaper of the band just
    entered: in an iteration it is called at most once, and on the join of
    the folder of the new current band and an entry of that folder that
    passed the suffix test. *)
Theorem applied_wallpaper_is_of_the_band (w : world) (block : list float) (st : state) :
  exists st' r evs,
    loop_body libm_log10 np_rms w block st = (st', r) /\
    trace st' = trace st ++ evs /\
    (length (applied_paths evs) <= 1)%nat /\
    (forall p, p ∈ applied_paths evs ->
       exists label folder entries name,
         current_label st' = Some label /\
         CATEGORIES !! label = Some folder /\
         fs w !! folder = Some (Dir entries) /\ name ∈ entries /\
         endswith_any (lower name) IMAGE_SUFFIXES = true /\
         p = os_path_join folder name).
Proof.
  rewrite loop_body_on_db_value.
  destruct (on_db_value w _ st) as [st' r] eqn:E. exists st', r.
  destruct (iteration_run_facts _ _ _ _ _ E) as (evs & T & F & _ & Hfrom & _).
  exists evs. split; [reflexivity|]. split; [exact T|].
  destruct F as (F1 & F2 & _ & F4 & _). split; [lia|].
  intros p Hp. destruct (Hfrom p Hp) as (label & Hl & folder & entries & name & H).
  exists label, folder, entries, name. tauto.
Qed.

End WithNumerics.


Lemma running_loop_sleeps_once_per_block_witness :
  exists evs,
    trace (main_loop (fun _ => (-0.5)%float) (fun _ => 0.5%float)
             [Block w_loud []; Block w_loud []] initial_state).1
    = trace initial_state ++ evs /\
    sleeps evs = length [Block w_loud []; Block w_loud []] /\
    blocks [Block w_loud []; Block w_loud []] = length [Block w_loud []; Block w_loud []].
Proof.
  apply (running_loop_sleeps_once_per_block (fun _ => (-0.5)%float) (fun _ => 0.5%float)).
  reflexivity.
Defined.

(** Three blocks, the interrupt and a block that is never processed: the
    level of a block is its first sample here. *)
Example main_trace_readings :
  reported_bands
    (main_trace (fun x => x) (fun b => hd 0%float b)
       [Block w_loud [0.5%float]; Block w_loud [0.5%float]; Block w_loud [0%float];
        CtrlC; Block w_loud [0.5%float]])
  = ["Very Loud"; "Quiet"] /\
  sleeps
    (main_trace (fun x => x) (fun b => hd 0%float b)
       [Block w_loud [0.5%float]; Block w_loud [0.5%float]; Block w_loud [0%float];
        CtrlC; Block w_loud [0.5%float]])
  = 3%nat.
Proof. split; reflexivity. Qed.

End LoopFacts.

(** ** The table of folders *)

Module Table.

Local Open Scope string_scope.

Lemma CATEGORIES_lookup (k f : string) :
  CATEGORIES !! k = Some f <->
  (k = "Quiet" /\ f = "wallpapers/quiet") \/
  (k = "Moderate" /\ f = "wallpapers/moderate") \/
  (k = "Loud" /\ f = "wallpapers/loud") \/
  (k = "Very Loud" /\ f = "wallpapers/very_loud").
Proof.
  unfold CATEGORIES. rewrite !lookup_insert_Some, lookup_singleton_Some.
  change (os_path_join BASE_PATH "quiet") with "wallpapers/quiet".
  change (os_path_join BASE_PATH "moderate") with "wallpapers/moderate".
  change (os_path_join BASE_PATH "loud") with "wallpapers/loud".
  change (os_path_join BASE_PATH "very_loud") with "wallpapers/very_loud".
  split.
  - intros [[<- <-]|[_ [[<- <-]|[_ [[<- <-]|[_ [<- <-]]]]]]]; tauto.
  - intros [[-> ->]|[[-> ->]|[[-> ->]|[-> ->]]]].
    + left. auto.
    + right. split; [discriminate|]. left. auto.
    + right. split; [discriminate|]. right. split; [discriminate|]. left. auto.
    + right. split; [discriminate|]. right. split; [discriminate|].
      right. split; [discriminate|]. auto.
Qed.

(** X18. The table of folders and the classifier fit: the keys of
    [CATEGORIES] are exactly the four labels, each of them is the band of
    some decibel value, and no two bands share a folder. *)
Theorem CATEGORIES_fits_the_bands :
  (forall k, is_Some (CATEGORIES !! k) <-> k ∈ LABELS) /\
  (forall k, k ∈ LABELS -> exists d, (classify_db d).1 = k) /\
  (forall k1 k2 f, CATEGORIES !! k1 = Some f -> CATEGORIES !! k2 = Some f -> k1 = k2).
Proof.
  split; [|split].
  - intros k. unfold LABELS. rewrite !elem_of_cons, elem_of_nil. split.
    + intros [f Hf]. apply CATEGORIES_lookup in Hf. tauto.
    + intros [-> | [-> | [-> | [-> | []]]]]; eexists; reflexivity.
  - intros k. unfold LABELS. rewrite !elem_of_cons, elem_of_nil.
    intros [-> | [-> | [-> | [-> | []]]]].
    + exists (-50)%float. reflexivity.
    + exists (-30)%float. reflexivity.
    + exists (-10)%float. reflexivity.
    + exists 0%float. reflexivity.
  - intros k1 k2 f H1 H2. apply CATEGORIES_lookup in H1, H2.
    destruct H1 as [[-> ->]|[[-> ->]|[[-> ->]|[-> ->]]]];
      destruct H2 as [[-> E]|[[-> E]|[[-> E]|[-> E]]]];
      try reflexivity; discriminate E.
Qed.

End Table.

(** ** A reference other than the default *)

Module Reference.

Import FloatOrder.
Local Open Scope float_scope.

(** *** Rounding keeps the sign *)

Lemma iter_pos_invariant {A} (P : A -> Prop) (f : A -> A) :
  (forall x, P x -> P (f x)) -> forall n x, P x -> P (SpecFloat.iter_pos f n x).
Proof.
  intros Hf. induction n as [n IH|n IH|]; intros x Hx; simpl; auto.
Qed.

Lemma shr_1_nonneg (mrs : shr_record) : (0 <= shr_m mrs)%Z -> (0 <= shr_m (shr_1 mrs))%Z.
Proof.
  destruct mrs as [m r s]. simpl. intros Hm.
  destruct m as [|[p|p|]|p]; simpl; lia.
Qed.

Lemma shr_nonneg (mrs : shr_record) (e n : Z) :
  (0 <= shr_m mrs)%Z -> (0 <= shr_m (shr mrs e n).1)%Z.
Proof.
  intros Hm. unfold shr. destruct n as [|p|p]; simpl; try assumption.
  apply (iter_pos_invariant (fun x => (0 <= shr_m x)%Z)); [apply shr_1_nonneg|assumption].
Qed.

Lemma shr_fexp_nonneg (m e : Z) (l : location) :
  (0 <= m)%Z -> (0 <= shr_m (shr_fexp prec emax m e l).1)%Z.
Proof.
  intros Hm. unfold shr_fexp. apply shr_nonneg.
  destruct l as [|[]]; simpl; assumption.
Qed.

Lemma round_nearest_even_nonneg (m : Z) (l : location) :
  (0 <= m)%Z -> (0 <= round_nearest_even m l)%Z.
Proof.
  intros Hm. unfold round_nearest_even.
  destruct l as [|[]]; try assumption; try lia. destruct (Z.even m); lia.
Qed.

Lemma binary_round_aux_signed (sx : bool) (mx ex : Z) (lx : location) :
  (0 <= mx)%Z -> signed sx (binary_round_aux prec emax sx mx ex lx).
Proof.
  intros Hm. unfold binary_round_aux.
  pose proof (shr_fexp_nonneg mx ex lx Hm) as H1.
  destruct (shr_fexp prec emax mx ex lx) as [mrs' e'].
  pose proof (shr_fexp_nonneg _ e' loc_Exact
                (round_nearest_even_nonneg (shr_m mrs') (loc_of_shr_record mrs') H1)) as H2.
  destruct (shr_fexp prec emax _ e' loc_Exact) as [mrs'' e''].
  cbn [fst] in H2. destruct (shr_m mrs'') as [|p|p]; simpl; try reflexivity; [|lia].
  destruct (e'' <=? emax - prec)%Z; reflexivity.
Qed.

Lemma SFdiv_core_nonneg (m1 m2 : positive) (e1 e2 : Z) :
  (0 <= (SFdiv_core_binary prec emax (Zpos m1) e1 (Zpos m2) e2).1.1)%Z.
Proof.
  unfold SFdiv_core_binary.
  set (s := (e1 - e2 - _)%Z).
  set (m' := match s with Zpos _ => Z.shiftl (Zpos m1) s | Z0 => Zpos m1 | Zneg _ => 0%Z end).
  assert (Hm' : (0 <= m')%Z).
  { subst m'. destruct s; try lia. apply Z.shiftl_nonneg. lia. }
  pose proof (Z.div_pos m' (Zpos m2) Hm' ltac:(lia)) as Hq.
  unfold Z.div in Hq. destruct (Z.div_eucl m' (Zpos m2)) as [q r]. exact Hq.
Qed.

(** A positive finite value over a negative one has the sign bit set. *)
Lemma SF64div_pos_neg (m : positive) (e : Z) (y : spec_float) :
  signed true y -> y <> S754_zero true ->
  signed true (SF64div (S754_finite false m e) y).
Proof.
  intros Hy Hz. destruct y as [s|s| |s my ey]; simpl in Hy; try contradiction; subst s.
  - congruence.
  - reflexivity.
  - unfold SF64div, SFdiv.
    pose proof (SFdiv_core_nonneg m my e ey) as Hq.
    destruct (SFdiv_core_binary prec emax (Zpos m) e (Zpos my) ey) as [[mz ez] lz].
    apply binary_round_aux_signed. exact Hq.
Qed.

Lemma signed_leb_zero (q : float) : signed true (Prim2SF q) -> (q <=? 0) = true.
Proof.
  rewrite leb_spec. change (Prim2SF 0) with (S754_zero false).
  destruct (Prim2SF q) as [s|s| |s m e]; simpl; try contradiction; intros ->; reflexivity.
Qed.

Section WithLog10.

Variable libm_log10 : float -> float.

(** X19. With a negative reference every positive finite level makes
    [rms_to_dbfs] raise [ValueError]: the quotient has the sign bit set,
    be it a negative number or a negative zero, and [math.log10] refuses
    it. *)
Theorem rms_to_dbfs_negative_reference (r ref : float) (q : Q) (st : state) :
  float_value r = Some (Fin q) ->
  (0 <? r) = true -> (ref <? 0) = true ->
  rms_to_dbfs libm_log10 r ref st = (st, Raise ValueError).
Proof.
  intros Hv Hr Href.
  pose proof (ltb_leb_false 0 r Hr) as Hle.
  assert (Hfin : exists m e, Prim2SF r = S754_finite false m e).
  { unfold float_value in Hv. rewrite ltb_spec in Hr.
    change (Prim2SF 0) with (S754_zero false) in Hr.
    destruct (Prim2SF r) as [s|[|]| |[|] m e]; cbv [SFltb SFcompare] in Hr;
      simpl in Hv; try discriminate; eauto. }
  destruct Hfin as (m & e & Hm).
  assert (Hneg : signed true (Prim2SF ref) /\ Prim2SF ref <> S754_zero true).
  { rewrite ltb_spec in Href. change (Prim2SF 0) with (S754_zero false) in Href.
    destruct (Prim2SF ref) as [s|[|]| |[|] mr er]; cbv [SFltb SFcompare] in Href;
      try discriminate; split; simpl; congruence. }
  assert (Hnz : (ref =? 0) = false).
  { rewrite FloatAxioms.eqb_spec. change (Prim2SF 0) with (S754_zero false).
    destruct Hneg as [Hs Hz].
    destruct (Prim2SF ref) as [s|s| |s mr er]; simpl in Hs; try contradiction; subst s;
      try reflexivity. congruence. }
  assert (Hq : (r / ref <=? 0) = true).
  { apply signed_leb_zero. rewrite div_spec, Hm.
    destruct Hneg as [Hs Hz]. now apply SF64div_pos_neg. }
  unfold rms_to_dbfs, bind, truediv, math_log10. rewrite Hle, Hnz.
  unfold ret at 1. now rewrite Hq.
Qed.

End WithLog10.

Lemma rms_to_dbfs_negative_reference_witness :
  rms_to_dbfs (fun x => x) 0.5 (-1) (mkState None []) = (mkState None [], Raise ValueError).
Proof.
  refine (rms_to_dbfs_negative_reference (fun x => x) 0.5 (-1) _ (mkState None []) _ _ _);
    reflexivity.
Defined.

End Reference.
